(** * Financial forecasting agent ([app.py]): calculation and intent layer

    A shallow embedding of the pure part of [app.py]: the currency formatter,
    the metric functions, the scenario comparison and the keyword dispatch of
    the chat tab, over a small model of the Python values they handle.

    - Python [int] is [Z]; Python [float] and [numpy.float64] are IEEE-754
      binary64, taken from the Standard Library's [SpecFloat] (no rounding is
      abstracted away, nothing is assumed about it).
    - Python [str] is a list of Unicode code points.
    - An exception is a value of [result]; [Raise] propagates through [;;].
    - The fitted regression ([model.predict]), [str.lower] and the printing of
      a rounded float are library behaviour the source only calls: they are
      section variables, so every statement holds for whatever they compute.
    - The interpreter's cap on decimal conversions (4300 digits by default)
      is modelled where a text is converted, in [extract_number].  The
      formatter's [str(val)] has no cap in the model: no call site hands the
      formatter an integer of more than 4300 digits. *)

From Stdlib Require Import ZArith NArith List String Ascii Bool Lia.
From Stdlib Require Import DecimalFacts DecimalPos DecimalN DecimalZ.
From Stdlib Require Import SpecFloat.
Import ListNotations.
Local Open Scope Z_scope.

(** [len(s)] is the length of the list of code points. *)
Abbreviation length := List.length.

(* ================================================================== *)
(** ** Exceptions *)

Inductive exn : Type :=
| ZeroDivisionError
| OverflowError
| ValueError
| TypeError.

Inductive result (A : Type) : Type :=
| Ok (a : A)
| Raise (e : exn).
Arguments Ok {A} a.
Arguments Raise {A} e.

Definition bind {A B : Type} (r : result A) (k : A -> result B) : result B :=
  match r with
  | Ok a => k a
  | Raise e => Raise e
  end.

Notation "x <- r ;; k" := (bind r (fun x => k))
  (at level 61, r at next level, right associativity).

(** [[f(x) for x in xs]]: the elements are evaluated left to right and the
    first exception aborts the whole comprehension. *)
Fixpoint map_result {A B : Type} (f : A -> result B) (xs : list A)
  : result (list B) :=
  match xs with
  | [] => Ok []
  | x :: xs' => y <- f x ;; ys <- map_result f xs' ;; Ok (y :: ys)
  end.

Definition raises {A : Type} (r : result A) : Prop :=
  match r with
  | Raise _ => True
  | Ok _ => False
  end.

(* ================================================================== *)
(** ** Strings *)

(** A code point; a [str] is the list of its code points. *)
Definition codepoint := N.
Definition pystr := list codepoint.

(** An ASCII literal of the source. *)
Definition lit (s : string) : pystr :=
  map N_of_ascii (list_ascii_of_string s).

(** U+20B9, the rupee sign of the source's display strings. *)
Definition rupee : codepoint := 8377%N.
Definition newline : codepoint := 10%N.
Definition comma : codepoint := 44%N.
Definition minus : codepoint := 45%N.

(** [s[-n:]] and [s[:-n]] for [n > 0]. *)
Definition last_chars (n : nat) (s : pystr) : pystr :=
  skipn (length s - n) s.
Definition drop_last_chars (n : nat) (s : pystr) : pystr :=
  firstn (length s - n) s.

(** [sep.join(parts)] *)
Fixpoint join (sep : pystr) (parts : list pystr) : pystr :=
  match parts with
  | [] => []
  | [p] => p
  | p :: ps => p ++ sep ++ join sep ps
  end.

(** [needle in hay] *)
Fixpoint starts_with (needle hay : pystr) : bool :=
  match needle, hay with
  | [], _ => true
  | _ :: _, [] => false
  | a :: needle', b :: hay' => N.eqb a b && starts_with needle' hay'
  end.

Fixpoint py_in (needle hay : pystr) : bool :=
  starts_with needle hay ||
  match hay with
  | [] => false
  | _ :: hay' => py_in needle hay'
  end.

(** What [needle in hay] decides ([py_in_contains] below). *)
Definition contains (needle hay : pystr) : Prop :=
  exists pre post, hay = pre ++ needle ++ post.

(** *** Character classes (Unicode 14, as CPython 3.11 ships it) *)

Definition in_range (c : codepoint) (r : N * N) : bool :=
  (fst r <=? c)%N && (c <=? snd r)%N.

(** [str.isspace] of one character, which is also what [str.split()] cuts at. *)
Definition whitespace_ranges : list (N * N) :=
  [ (9, 13); (28, 32); (133, 133); (160, 160); (5760, 5760); (8192, 8202);
    (8232, 8233); (8239, 8239); (8287, 8287); (12288, 12288) ]%N.

Definition is_space (c : codepoint) : bool :=
  existsb (in_range c) whitespace_ranges.

(** First code point of each run of ten decimal digits (general category Nd):
    the digit at [b + i] has value [i]. *)
Definition decimal_runs : list N :=
  [ 48; 1632; 1776; 1984; 2406; 2534; 2662; 2790; 2918; 3046; 3174; 3302;
    3430; 3558; 3664; 3792; 3872; 4160; 4240; 6112; 6160; 6470; 6608; 6784;
    6800; 6992; 7088; 7232; 7248; 42528; 43216; 43264; 43472; 43504; 43600;
    44016; 65296; 66720; 68912; 69734; 69872; 69942; 70096; 70384; 70736;
    70864; 71248; 71360; 71472; 71904; 72016; 72784; 73040; 73120; 92768;
    92864; 93008; 120782; 120792; 120802; 120812; 120822; 123200; 123632;
    125264; 130032 ]%N.

(** The value [int()] gives a character, if it is a decimal digit. *)
Definition decimal_value (c : codepoint) : option Z :=
  match find (fun b => in_range c (b, b + 9)%N) decimal_runs with
  | Some b => Some (Z.of_N (c - b))
  | None => None
  end.

(** Characters of numeric type Digit that are not decimal: superscripts,
    subscripts, circled and parenthesised digits and the like. *)
Definition other_digit_ranges : list (N * N) :=
  [ (178, 179); (185, 185); (4969, 4977); (6618, 6618); (8304, 8304);
    (8308, 8313); (8320, 8329); (9312, 9320); (9332, 9340); (9352, 9360);
    (9450, 9450); (9461, 9469); (9471, 9471); (10102, 10110); (10112, 10120);
    (10122, 10130); (68160, 68163); (69216, 69224); (69714, 69722);
    (127232, 127242) ]%N.

Definition is_digit (c : codepoint) : bool :=
  match decimal_value c with
  | Some _ => true
  | None => existsb (in_range c) other_digit_ranges
  end.

(** [s.isdigit()]: at least one character, and all of them digits. *)
Definition isdigit (s : pystr) : bool :=
  match s with
  | [] => false
  | _ => forallb is_digit s
  end.

(** [text.split()]: the maximal runs of non-whitespace characters.
    [cur] is the run being read, last character first. *)
Definition flush (cur : pystr) (acc : list pystr) : list pystr :=
  match cur with
  | [] => acc
  | _ => rev cur :: acc
  end.

Fixpoint split_from (cur : pystr) (text : pystr) : list pystr :=
  match text with
  | [] => flush cur []
  | c :: text' =>
      if is_space c then flush cur (split_from [] text')
      else split_from (c :: cur) text'
  end.

Definition split (text : pystr) : list pystr := split_from [] text.

(** The decimal value of a string of digit characters, when every one of
    them is a decimal digit; [int] refuses the others with [ValueError]. *)
Fixpoint int_of_digits_from (acc : Z) (s : pystr) : result Z :=
  match s with
  | [] => Ok acc
  | c :: s' =>
      match decimal_value c with
      | Some d => int_of_digits_from (10 * acc + d) s'
      | None => Raise ValueError
      end
  end.

Definition int_of_digits (s : pystr) : result Z := int_of_digits_from 0 s.

(** [sys.get_int_max_str_digits()], as the interpreter starts with. *)
Definition int_max_str_digits : nat := 4300.

(** [int(s)] for a token [s] that passed [s.isdigit()]: [ValueError] for a
    token of more digits than the interpreter converts (leading zeros
    count) and for one with a digit that is not decimal, its decimal value
    otherwise. *)
Definition int_of_token (s : pystr) : result Z :=
  if (int_max_str_digits <? length s)%nat then Raise ValueError
  else int_of_digits s.

(** The tokens [int] accepts. *)
Definition token_converts (s : pystr) : bool :=
  forallb (fun c => match decimal_value c with
                    | Some _ => true
                    | None => false
                    end) s
  && (length s <=? int_max_str_digits)%nat.

(** [str(n)] for an [int]: the decimal digits, most significant first, after a
    minus sign when [n < 0]. *)
Fixpoint chars_of_uint (d : Decimal.uint) : pystr :=
  match d with
  | Decimal.Nil => []
  | Decimal.D0 d' => 48%N :: chars_of_uint d'
  | Decimal.D1 d' => 49%N :: chars_of_uint d'
  | Decimal.D2 d' => 50%N :: chars_of_uint d'
  | Decimal.D3 d' => 51%N :: chars_of_uint d'
  | Decimal.D4 d' => 52%N :: chars_of_uint d'
  | Decimal.D5 d' => 53%N :: chars_of_uint d'
  | Decimal.D6 d' => 54%N :: chars_of_uint d'
  | Decimal.D7 d' => 55%N :: chars_of_uint d'
  | Decimal.D8 d' => 56%N :: chars_of_uint d'
  | Decimal.D9 d' => 57%N :: chars_of_uint d'
  end.

Definition str_int (n : Z) : pystr :=
  match Z.to_int n with
  | Decimal.Pos d => chars_of_uint d
  | Decimal.Neg d => minus :: chars_of_uint d
  end.

(* ================================================================== *)
(** ** Numbers *)

(** IEEE-754 binary64. *)
Definition float64 := spec_float.

Definition f64_sub : float64 -> float64 -> float64 := SFsub 53 1024.
Definition f64_mul : float64 -> float64 -> float64 := SFmul 53 1024.
Definition f64_div : float64 -> float64 -> float64 := SFdiv 53 1024.

Definition f64_zero : float64 := S754_zero false.

Definition f64_is_zero (x : float64) : bool :=
  match x with
  | S754_zero _ => true
  | _ => false
  end.

Definition f64_is_finite (x : float64) : bool :=
  match x with
  | S754_zero _ | S754_finite _ _ _ => true
  | S754_infinity _ | S754_nan => false
  end.

Definition f64_is_inf_or_nan (x : float64) : bool := negb (f64_is_finite x).

(** The float nearest to an integer (ties to even); infinite when the integer
    is beyond the range of binary64. *)
Definition f64_of_Z (z : Z) : float64 := binary_normalize 53 1024 z 0 false.

(** An integer as an unrounded operand of a float operation. *)
Definition f64_exact (z : Z) : float64 :=
  match z with
  | Z0 => S754_zero false
  | Zpos p => S754_finite false p 0
  | Zneg p => S754_finite true p 0
  end.

(** The values that reach the formatter and the metric functions. *)
Inductive value : Type :=
| PyInt (z : Z)           (* int *)
| PyFloat (x : float64)   (* float *)
| NpFloat (x : float64)   (* numpy.float64, what model.predict returns *)
| PyNone.                 (* None, standing for an object that is no number *)

Definition is_np (v : value) : bool :=
  match v with
  | NpFloat _ => true
  | _ => false
  end.

(** int, float: the numbers of the language itself. *)
Definition is_builtin_number (v : value) : bool :=
  match v with
  | PyInt _ | PyFloat _ => true
  | _ => false
  end.

(** [v == 0] *)
Definition is_zero (v : value) : bool :=
  match v with
  | PyInt z => z =? 0
  | PyFloat x | NpFloat x => f64_is_zero x
  | PyNone => false
  end.

(** Conversion of an [int] operand of a float operation: [OverflowError] when
    it is too large. *)
Definition float_of_int (z : Z) : result float64 :=
  match f64_of_Z z with
  | S754_infinity _ => Raise OverflowError
  | x => Ok x
  end.

Definition to_float (v : value) : result float64 :=
  match v with
  | PyInt z => float_of_int z
  | PyFloat x | NpFloat x => Ok x
  | PyNone => Raise TypeError
  end.

(** [int(x)] of a float: truncation toward zero; no integer for NaN and the
    infinities. *)
Definition float_trunc (x : float64) : result Z :=
  match x with
  | S754_zero _ => Ok 0
  | S754_finite s m e =>
      let a := Z.shiftl (Zpos m) e in
      Ok (if s then - a else a)
  | S754_infinity _ => Raise OverflowError
  | S754_nan => Raise ValueError
  end.

(** [int(v)] *)
Definition py_int (v : value) : result Z :=
  match v with
  | PyInt z => Ok z
  | PyFloat x | NpFloat x => float_trunc x
  | PyNone => Raise TypeError
  end.

(** The result of a float operation is a [numpy.float64] as soon as one
    operand is. *)
Definition float_result (a b : value) (x : float64) : value :=
  if is_np a || is_np b then NpFloat x else PyFloat x.

(** [a - b] *)
Definition py_sub (a b : value) : result value :=
  match a, b with
  | PyNone, _ | _, PyNone => Raise TypeError
  | PyInt x, PyInt y => Ok (PyInt (x - y))
  | _, _ =>
      x <- to_float a ;;
      y <- to_float b ;;
      Ok (float_result a b (f64_sub x y))
  end.

(** [a * b] *)
Definition py_mul (a b : value) : result value :=
  match a, b with
  | PyNone, _ | _, PyNone => Raise TypeError
  | PyInt x, PyInt y => Ok (PyInt (x * y))
  | _, _ =>
      x <- to_float a ;;
      y <- to_float b ;;
      Ok (float_result a b (f64_mul x y))
  end.

(** [a / b] of two [int]s: the correctly rounded quotient. *)
Definition int_true_div (a b : Z) : result float64 :=
  if b =? 0 then Raise ZeroDivisionError
  else
    match f64_div (f64_exact a) (f64_exact b) with
    | S754_infinity _ => Raise OverflowError
    | q => Ok q
    end.

(** [a / b]: the language's own numbers raise on a zero divisor; a
    [numpy.float64] operation follows IEEE-754 and returns an infinity or a
    NaN (numpy only emits a warning). *)
Definition py_div (a b : value) : result value :=
  match a, b with
  | PyNone, _ | _, PyNone => Raise TypeError
  | PyInt x, PyInt y => q <- int_true_div x y ;; Ok (PyFloat q)
  | _, _ =>
      x <- to_float a ;;
      y <- to_float b ;;
      if is_np a || is_np b then Ok (NpFloat (f64_div x y))
      else if f64_is_zero y then Raise ZeroDivisionError
      else Ok (PyFloat (f64_div x y))
  end.

(* ================================================================== *)
(** ** Number formatting (Indian currency), [app.py] lines 11-30 *)

(** The [while] loop of lines 24-26.  Every turn shortens [rest] by two
    characters, so [fuel = len(rest)] turns are never used up
    ([group_pairs_exit] below). *)
Fixpoint group_pairs (fuel : nat) (rest : pystr) (parts : list pystr)
  : pystr * list pystr :=
  match fuel with
  | O => (rest, parts)
  | S fuel' =>
      if (2 <? length rest)%nat
      then group_pairs fuel' (drop_last_chars 2 rest)
                       (last_chars 2 rest :: parts)
      else (rest, parts)
  end.

(** Lines 23-28: the groups before the last three characters, leftmost
    first. *)
Definition leading_groups (rest : pystr) : list pystr :=
  let '(rest, parts) := group_pairs (length rest) rest [] in
  match rest with
  | [] => parts
  | _ => rest :: parts
  end.

(** The same from any fuel and any groups already peeled off. *)
Definition groups_from (fuel : nat) (rest : pystr) (parts : list pystr)
  : list pystr :=
  let '(r, p) := group_pairs fuel rest parts in
  match r with
  | [] => p
  | _ => r :: p
  end.

(** Lines 21-29: the grouped text of a string of more than three
    characters. *)
Definition grouped (s : pystr) : pystr :=
  let last3 := last_chars 3 s in
  let rest := drop_last_chars 3 s in
  join [comma] (leading_groups rest) ++ [comma] ++ last3.

Definition format_currency (val : value) : pystr :=
  match py_int val with
  | Raise _ => rupee :: lit " 0"
  | Ok val =>
      let s := str_int val in
      if (length s <=? 3)%nat then rupee :: lit " " ++ s
      else rupee :: lit " " ++ grouped s
  end.

(** *** Reading a display string

    What the formatter shows of an [int] after the currency sign and the
    space, and the notions the properties of the formatter are worded with:
    the groups between the separators, and the digits left when everything
    else is stripped. *)

Definition arranged (s : pystr) : pystr :=
  if (length s <=? 3)%nat then s else grouped s.

Definition amount (n : Z) : pystr := arranged (str_int n).

(** [s.split(sep)] for a one-character separator. *)
Fixpoint split_on (sep : codepoint) (s : pystr) : list pystr :=
  match s with
  | [] => [[]]
  | c :: s' =>
      if N.eqb c sep then [] :: split_on sep s'
      else match split_on sep s' with
           | g :: gs => (c :: g) :: gs
           | [] => [[c]]
           end
  end.

(** The sizes of the comma-separated groups of a display string, after its
    two-character currency prefix. *)
Definition group_sizes (shown : pystr) : list nat :=
  map (@length codepoint) (split_on comma (skipn 2 shown)).

Definition is_decimal (c : codepoint) : bool :=
  match decimal_value c with
  | Some _ => true
  | None => false
  end.

Definition digits_only (s : pystr) : pystr := filter is_decimal s.

(* ================================================================== *)
(** ** Tool functions, lines 46-65 *)

Definition roi_tool (revenue marketing : value) : result value :=
  d <- py_sub revenue marketing ;;
  py_div d marketing.

Definition profit_tool (revenue store online : value) : result value :=
  d <- py_sub revenue store ;;
  py_sub d online.

Definition margin_tool (profit revenue : value) : result value :=
  q <- py_div profit revenue ;;
  py_mul q (PyInt 100).

Definition extract_number (text : pystr) : result (option Z) :=
  nums <- map_result int_of_token (filter isdigit (split text)) ;;
  Ok (match nums with
      | n :: _ => Some n
      | [] => None
      end).

(** [num if num else d]: [None] and [0] are both false. *)
Definition or_default (num : option Z) (d : Z) : Z :=
  match num with
  | Some n => if n =? 0 then d else n
  | None => d
  end.

Definition help_message : pystr :=
  lit "I can help with:" ++ newline ::
  lit "- Revenue forecast" ++ newline ::
  lit "- ROI" ++ newline ::
  lit "- Profit" ++ newline ::
  lit "- Marketing scenarios" ++ newline ::
  lit "Try: 'Forecast revenue for 250000 marketing'".

Section App.

(** [model.predict([[marketing, store, online]])[0]] for the regression
    fitted at start-up on the spreadsheet. *)
Variable predict : Z -> Z -> Z -> float64.
(** [str.lower] *)
Variable str_lower : pystr -> pystr.
(** The text an f-string shows for [round(x, 2)]. *)
Variable show_round2 : value -> pystr.

Definition forecast_tool (marketing store online : Z) : value :=
  NpFloat (predict marketing store online).

Definition scenario_tool (base_marketing delta : Z) : value * value :=
  let base := forecast_tool base_marketing 200000 100000 in
  let new := forecast_tool (base_marketing + delta) 200000 100000 in
  (base, new).

(** [uplift = new - base], lines 176 and 223. *)
Definition uplift (base_new : value * value) : result value :=
  py_sub (snd base_new) (fst base_new).

(** The bodies of the branches of the chat tab, each from the value its
    first line settles. *)

(** Lines 207-208. *)
Definition forecast_reply (val : Z) : result pystr :=
  let revenue := forecast_tool val 200000 100000 in
  Ok (lit "Projected revenue for " ++ format_currency (PyInt val)
      ++ lit " marketing is " ++ format_currency revenue ++ lit ".").

(** Lines 212-214. *)
Definition roi_reply (val : Z) : result pystr :=
  let revenue := forecast_tool val 200000 100000 in
  roi <- roi_tool revenue (PyInt val) ;;
  Ok (lit "ROI for spend " ++ format_currency (PyInt val)
      ++ lit " is " ++ show_round2 roi ++ lit ".").

(** Lines 217-218. *)
Definition profit_reply : result pystr :=
  let revenue := forecast_tool 200000 200000 100000 in
  p <- profit_tool revenue (PyInt 200000) (PyInt 100000) ;;
  Ok (lit "Estimated profit: " ++ format_currency p ++ lit ".").

(** Lines 222-223. *)
Definition scenario_reply (delta : Z) : result pystr :=
  u <- uplift (scenario_tool 200000 delta) ;;
  Ok (lit "Uplift for +" ++ format_currency (PyInt delta)
      ++ lit " is " ++ format_currency u ++ lit ".").

(** The [if]/[elif] chain, lines 205-233. *)
Definition respond (q : pystr) (num : option Z) : result pystr :=
  if py_in (lit "forecast") q then forecast_reply (or_default num 200000)
  else if py_in (lit "roi") q then roi_reply (or_default num 200000)
  else if py_in (lit "profit") q then profit_reply
  else if py_in (lit "increase") q || py_in (lit "what if") q
       then scenario_reply (or_default num 50000)
  else Ok help_message.

(** The handler of the Submit button, lines 201-235. *)
Definition agent_chat (query : pystr) : result pystr :=
  let q := str_lower query in
  num <- extract_number q ;;
  respond q num.

End App.

(** *** A run-time to evaluate the handler on *)

(** [str.lower] on texts without cased characters outside A-Z. *)
Definition ascii_lower (s : pystr) : pystr :=
  map (fun c => if in_range c (65, 90)%N then (c + 32)%N else c) s.

(** A regression with whole coefficients, to run the handler with. *)
Definition sample_predict (marketing store online : Z) : float64 :=
  f64_of_Z (150000 + 3 * marketing + store + 2 * online).

(** A stand-in for the printing of [round(x, 2)]: the integer part. *)
Definition sample_round2 (v : value) : pystr :=
  match py_int v with
  | Ok z => str_int z
  | Raise _ => lit "nan"
  end.

Definition sample_chat : pystr -> result pystr :=
  agent_chat sample_predict ascii_lower sample_round2.

(* ================================================================== *)
(** ** The Forecast & Metrics tab, lines 132-163 *)

(** How one run of the tab's script ends: with its result, with an exception
    of the computation, or at a module-level name that is read before
    anything was assigned to it. *)
Inductive outcome (A : Type) : Type :=
| Done (a : A)
| Failed (e : exn)
| NameError (name : string).
Arguments Done {A} a.
Arguments Failed {A} e.
Arguments NameError {A} name.

(** The four names the Run Forecast button assigns, lines 140-143. *)
Record metrics : Type := Metrics {
  revenue : value;
  profit : value;
  margin : value;
  roi : value
}.

(** What the tab shows and what it offers for download. *)
Record tab1_view : Type := Tab1View {
  shown : list pystr;
  download : option (list (string * value))
}.

Section Tabs.

Variable predict : Z -> Z -> Z -> float64.
Variable show_round2 : value -> pystr.

(** Lines 140-143. *)
Definition run_forecast (marketing store online : Z) : result metrics :=
  let revenue := forecast_tool predict marketing store online in
  profit <- profit_tool revenue (PyInt store) (PyInt online) ;;
  margin <- margin_tool profit revenue ;;
  roi <- roi_tool revenue (PyInt marketing) ;;
  Ok (Metrics revenue profit margin roi).

(** Lines 145-148. *)
Definition forecast_lines (v : metrics) : list pystr :=
  [ lit "Projected Revenue: " ++ format_currency (revenue v);
    lit "Projected Profit: " ++ format_currency (profit v);
    lit "Gross Margin: " ++ show_round2 (margin v) ++ lit "%";
    lit "ROI: " ++ show_round2 (roi v) ].

(** Lines 152-160, the one row of [result_df], column by column.  [bound]
    holds the four names when Run Forecast assigned them in this run of the
    script; the first of them the row reads is [revenue]. *)
Definition export_row (marketing store online : Z) (bound : option metrics)
  : outcome (list (string * value)) :=
  match bound with
  | None => NameError "revenue"
  | Some v =>
      Done [ ("Marketing Spend"%string, PyInt marketing);
             ("Store Ops Cost"%string, PyInt store);
             ("Online Ops Cost"%string, PyInt online);
             ("Revenue"%string, revenue v);
             ("Profit"%string, profit v);
             ("Gross Margin %"%string, margin v);
             ("ROI"%string, roi v) ]
  end.

(** One run of the tab's script for the slider values and the state of the two
    buttons. *)
Definition tab1 (marketing store online : Z)
           (run_clicked export_clicked : bool) : outcome tab1_view :=
  match (if run_clicked
         then match run_forecast marketing store online with
              | Ok v => Done (Some v)
              | Raise e => Failed e
              end
         else Done None) with
  | Done bound =>
      let lines := match bound with
                   | Some v => forecast_lines v
                   | None => []
                   end in
      if export_clicked
      then match export_row marketing store online bound with
           | Done row => Done (Tab1View lines (Some row))
           | Failed e => Failed e
           | NameError name => NameError name
           end
      else Done (Tab1View lines None)
  | Failed e => Failed e
  | NameError name => NameError name
  end.

End Tabs.

(** A position of [st.slider(label, lo, hi, value, step)]. *)
Definition on_slider (lo hi step v : Z) : Prop :=
  lo <= v <= hi /\ (v - lo) mod step = 0.

(** The characters an amount is written with: the ASCII digits, the
    separator and the minus sign. *)
Definition amount_char (c : codepoint) : bool :=
  in_range c (48, 57)%N || N.eqb c comma || N.eqb c minus.

Definition is_minus (c : codepoint) : bool := N.eqb c minus.

(* ================================================================== *)
(** ** Facts about the run-time model *)

Lemma raises_bind {A B : Type} (r : result A) (k : A -> result B) :
  raises r -> raises (x <- r ;; k x).
Proof. destruct r; simpl; intros H; [destruct H | exact I]. Qed.

Lemma bind_ok {A B : Type} (r : result A) (k : A -> result B) (a : A) :
  r = Ok a -> (x <- r ;; k x) = k a.
Proof. intros ->. reflexivity. Qed.

(** *** Floats *)

(** A float minus itself is +0, unless it is infinite or NaN. *)
Lemma f64_sub_diag (x : float64) :
  f64_is_finite x = true -> f64_sub x x = f64_zero.
Proof.
  destruct x as [s | s | | s m e]; simpl; try discriminate; intros _.
  - destruct s; reflexivity.
  - unfold f64_sub, SFsub. rewrite Z.min_id.
    unfold shl_align. repeat (rewrite Z.sub_diag; simpl). reflexivity.
Qed.

(** Dividing by a zero always yields an infinity or a NaN, and multiplying
    one of those never gives a finite number back. *)
Lemma f64_div_zero (x y : float64) :
  f64_is_zero y = true -> f64_is_inf_or_nan (f64_div x y) = true.
Proof.
  destruct y; simpl; try discriminate; intros _.
  destruct x; reflexivity.
Qed.

Lemma f64_mul_inf_or_nan (x y : float64) :
  f64_is_inf_or_nan x = true -> f64_is_inf_or_nan (f64_mul x y) = true.
Proof.
  destruct x; simpl; try discriminate; intros _; destruct y; reflexivity.
Qed.

Lemma float_of_int_zero : float_of_int 0 = Ok f64_zero.
Proof. reflexivity. Qed.

(** *** The zero of each kind of number *)

Lemma to_float_zero (v : value) :
  is_zero v = true -> exists y, to_float v = Ok y /\ f64_is_zero y = true.
Proof.
  destruct v as [z | x | x | ]; simpl; try discriminate.
  - intros H. apply Z.eqb_eq in H. subst z. exists f64_zero. split; reflexivity.
  - intros H. exists x. split; [reflexivity | exact H].
  - intros H. exists x. split; [reflexivity | exact H].
Qed.

Lemma py_div_builtin_zero (a b : value) :
  is_np a = false -> is_np b = false -> is_zero b = true ->
  raises (py_div a b).
Proof.
  intros Ha Hb Hz.
  destruct a as [x | x | x | ], b as [y | y | y | ];
    simpl in *; try discriminate; try exact I.
  - apply Z.eqb_eq in Hz. subst y. unfold int_true_div. simpl. exact I.
  - unfold float_of_int. destruct (f64_of_Z x); simpl; try exact I;
      rewrite Hz; exact I.
  - apply Z.eqb_eq in Hz. subst y. simpl.
    destruct x; simpl; exact I.
  - rewrite Hz. exact I.
Qed.

Lemma py_sub_builtin (a b d : value) :
  is_np a = false -> is_np b = false -> py_sub a b = Ok d -> is_np d = false.
Proof.
  intros Ha Hb.
  destruct a as [x | x | x | ], b as [y | y | y | ];
    simpl in *; try discriminate.
  - intros [= <-]. reflexivity.
  - destruct (float_of_int x); simpl; [intros [= <-]; reflexivity | discriminate].
  - destruct (float_of_int y); simpl; [intros [= <-]; reflexivity | discriminate].
  - intros [= <-]. reflexivity.
Qed.

(* ================================================================== *)
(** ** Ratio metrics on a zero divisor *)

Lemma roi_tool_np_zero (x : float64) (b : value) :
  is_zero b = true ->
  exists y, roi_tool (NpFloat x) b = Ok (NpFloat y)
            /\ f64_is_inf_or_nan y = true.
Proof.
  intros Hz. destruct (to_float_zero b Hz) as (y0 & Hy0 & Hzero).
  exists (f64_div (f64_sub x y0) y0). split.
  - unfold roi_tool.
    destruct b as [z | y | y | ]; simpl in *; try discriminate;
      rewrite ?Hy0; simpl; rewrite ?Hy0; simpl;
      try (injection Hy0 as <-); reflexivity.
  - now apply f64_div_zero.
Qed.

Lemma margin_tool_np_zero (x : float64) (b : value) :
  is_zero b = true ->
  exists y, margin_tool (NpFloat x) b = Ok (NpFloat y)
            /\ f64_is_inf_or_nan y = true.
Proof.
  intros Hz. destruct (to_float_zero b Hz) as (y0 & Hy0 & Hzero).
  exists (f64_mul (f64_div x y0) (f64_of_Z 100)). split.
  - unfold margin_tool.
    destruct b as [z | y | y | ]; simpl in *; try discriminate;
      rewrite ?Hy0; simpl; try (injection Hy0 as <-); reflexivity.
  - apply f64_mul_inf_or_nan. now apply f64_div_zero.
Qed.

Lemma roi_tool_builtin_zero (a b : value) :
  is_builtin_number a = true -> is_builtin_number b = true ->
  is_zero b = true -> raises (roi_tool a b).
Proof.
  intros Ha Hb Hz. unfold roi_tool.
  assert (Hna : is_np a = false) by (destruct a; simpl in *; congruence).
  assert (Hnb : is_np b = false) by (destruct b; simpl in *; congruence).
  destruct (py_sub a b) as [d | e] eqn:E; simpl; [ | exact I].
  apply py_div_builtin_zero; try assumption.
  exact (py_sub_builtin a b d Hna Hnb E).
Qed.

Lemma margin_tool_builtin_zero (a b : value) :
  is_builtin_number a = true -> is_builtin_number b = true ->
  is_zero b = true -> raises (margin_tool a b).
Proof.
  intros Ha Hb Hz. unfold margin_tool. apply raises_bind.
  apply py_div_builtin_zero; try assumption.
  - destruct a; simpl in *; congruence.
  - destruct b; simpl in *; congruence.
Qed.

(** C1, as the code has it.  With a zero divisor, [roi_tool] and
    [margin_tool] raise to their caller when both operands are numbers of the
    language itself ([int], [float]); when the dividend is a [numpy.float64],
    which is what [forecast_tool] returns, nothing is raised and the result is
    an infinity or a NaN. *)
Theorem ratio_zero_divisor (a b : value) :
  is_zero b = true ->
  (is_builtin_number a = true -> is_builtin_number b = true ->
   raises (roi_tool a b) /\ raises (margin_tool a b))
  /\
  (is_np a = true ->
   (exists y, roi_tool a b = Ok (NpFloat y) /\ f64_is_inf_or_nan y = true)
   /\
   (exists y, margin_tool a b = Ok (NpFloat y) /\ f64_is_inf_or_nan y = true)).
Proof.
  intros Hz. split.
  - intros Ha Hb. split.
    + now apply roi_tool_builtin_zero.
    + now apply margin_tool_builtin_zero.
  - destruct a as [z | x | x | ]; simpl; try discriminate. intros _. split.
    + now apply roi_tool_np_zero.
    + now apply margin_tool_np_zero.
Qed.

Lemma ratio_zero_divisor_witness :
  (raises (roi_tool (PyFloat (f64_of_Z 300000)) (PyInt 0))
   /\ raises (margin_tool (PyFloat (f64_of_Z 300000)) (PyInt 0)))
  /\
  ((exists y, roi_tool (NpFloat (f64_of_Z 300000)) (PyInt 0) = Ok (NpFloat y)
              /\ f64_is_inf_or_nan y = true)
   /\
   (exists y, margin_tool (NpFloat (f64_of_Z 300000)) (PyInt 0)
              = Ok (NpFloat y)
              /\ f64_is_inf_or_nan y = true)).
Proof.
  split.
  - apply (proj1 (ratio_zero_divisor (PyFloat (f64_of_Z 300000)) (PyInt 0)
                    eq_refl)); reflexivity.
  - apply (proj2 (ratio_zero_divisor (NpFloat (f64_of_Z 300000)) (PyInt 0)
                    eq_refl)); reflexivity.
Defined.

(** C1 fails as it is written.  A forecast of 300000 with no marketing spend:
    the ROI is [inf]; a profit of -300000 on no revenue: the margin is
    [-inf].  Neither call raises. *)
Lemma ratio_zero_divisor_silent :
  roi_tool (NpFloat (f64_of_Z 300000)) (PyInt 0)
    = Ok (NpFloat (S754_infinity false))
  /\ margin_tool (NpFloat (f64_of_Z (-300000))) (NpFloat f64_zero)
    = Ok (NpFloat (S754_infinity true)).
Proof. split; vm_compute; reflexivity. Qed.

(* ================================================================== *)
(** ** Profit *)

(** C7.  [profit_tool] is the left-to-right difference
    [revenue - store - online]: exact on integers, and on a forecast with
    integer costs the two float subtractions in that order. *)
Theorem profit_tool_spec :
  (forall revenue store online : value,
     profit_tool revenue store online
     = (d <- py_sub revenue store ;; py_sub d online))
  /\
  (forall r s o : Z,
     profit_tool (PyInt r) (PyInt s) (PyInt o) = Ok (PyInt (r - s - o)))
  /\
  (forall (x fs fo : float64) (s o : Z),
     float_of_int s = Ok fs -> float_of_int o = Ok fo ->
     profit_tool (NpFloat x) (PyInt s) (PyInt o)
     = Ok (NpFloat (f64_sub (f64_sub x fs) fo))).
Proof.
  repeat split.
  intros x fs fo s o Hs Ho. unfold profit_tool. simpl.
  rewrite Hs. simpl. rewrite Ho. reflexivity.
Qed.

Lemma profit_tool_spec_witness :
  profit_tool (NpFloat (f64_of_Z 1150000)) (PyInt 200000) (PyInt 100000)
  = Ok (NpFloat (f64_sub (f64_sub (f64_of_Z 1150000) (f64_of_Z 200000))
                         (f64_of_Z 100000))).
Proof.
  apply (proj2 (proj2 profit_tool_spec)); vm_compute; reflexivity.
Defined.

(* ================================================================== *)
(** ** Scenario comparison *)

(** An infinity or a NaN minus itself is NaN. *)
Lemma f64_sub_diag_nan (x : float64) :
  f64_is_finite x = false -> f64_sub x x = S754_nan.
Proof.
  destruct x as [s | s | | s m e]; simpl; try discriminate; intros _;
    [destruct s | ]; reflexivity.
Qed.

Section ScenarioFacts.

Variable predict : Z -> Z -> Z -> float64.

(** C6, as the code has it.  Both forecasts of [scenario_tool] are taken at
    store cost 200000 and online cost 100000, the second at [m + d] whatever
    the sign of [d]; the uplift its callers compute is [new - base]; with
    [d = 0] it is zero when the prediction is a finite number, and NaN when
    the prediction is an infinity or a NaN. *)
Theorem scenario_tool_spec (m d : Z) :
  let base := predict m 200000 100000 in
  let new := predict (m + d) 200000 100000 in
  scenario_tool predict m d = (NpFloat base, NpFloat new)
  /\ uplift (scenario_tool predict m d) = Ok (NpFloat (f64_sub new base))
  /\ (f64_is_finite base = true ->
      uplift (scenario_tool predict m 0) = Ok (NpFloat f64_zero))
  /\ (f64_is_finite base = false ->
      uplift (scenario_tool predict m 0) = Ok (NpFloat S754_nan)).
Proof.
  intros base new. split; [reflexivity | ]. split; [reflexivity | ].
  split; intros Hfin; unfold uplift, scenario_tool, forecast_tool; simpl;
    rewrite Z.add_0_r; fold base.
  - now rewrite f64_sub_diag.
  - now rewrite f64_sub_diag_nan.
Qed.

End ScenarioFacts.

Lemma scenario_tool_spec_witness :
  uplift (scenario_tool sample_predict 200000 0) = Ok (NpFloat f64_zero)
  /\ uplift (scenario_tool sample_predict (10 ^ 308) 0)
     = Ok (NpFloat S754_nan).
Proof.
  split.
  - apply (proj1 (proj2 (proj2
             (scenario_tool_spec sample_predict 200000 0)))).
    vm_compute; reflexivity.
  - apply (proj2 (proj2 (proj2
             (scenario_tool_spec sample_predict (10 ^ 308) 0)))).
    vm_compute; reflexivity.
Defined.

(** C6 fails as it is written.  For a base spend of [10 ^ 308] the sample
    model, whose weight on marketing is 3, predicts an infinite revenue
    twice, and with a zero delta the uplift [inf - inf] is NaN, not 0. *)
Lemma scenario_zero_delta_nan :
  scenario_tool sample_predict (10 ^ 308) 0
  = (NpFloat (S754_infinity false), NpFloat (S754_infinity false))
  /\ uplift (scenario_tool sample_predict (10 ^ 308) 0)
     = Ok (NpFloat S754_nan)
  /\ uplift (scenario_tool sample_predict (10 ^ 308) 0)
     <> Ok (NpFloat f64_zero).
Proof. repeat split; vm_compute; congruence. Qed.

(* ================================================================== *)
(** ** The formatter when its argument is no integer *)

(** [int(v)] fails exactly on [None], NaN and the infinities. *)
Lemma py_int_raises (v : value) :
  raises (py_int v) <->
  v = PyNone \/ exists x, (v = PyFloat x \/ v = NpFloat x)
                          /\ f64_is_inf_or_nan x = true.
Proof.
  split.
  - destruct v as [z | x | x | ]; simpl; try tauto;
      destruct x; simpl; try tauto; intros _; right; eexists;
        (split; [ (left; reflexivity) || (right; reflexivity) | reflexivity ]).
  - intros [-> | (x & [-> | ->] & Hx)]; simpl; try exact I;
      destruct x; simpl in *; try discriminate; exact I.
Qed.

(** C9.  When [int(val)] raises, [format_currency] returns the display string
    of the amount zero. *)
Theorem format_currency_coercion_failure (v : value) (e : exn) :
  py_int v = Raise e ->
  format_currency v = rupee :: lit " 0"
  /\ format_currency v = format_currency (PyInt 0).
Proof.
  intros H. unfold format_currency at 1 2. rewrite H. split; reflexivity.
Qed.

Lemma format_currency_coercion_failure_witness :
  format_currency (NpFloat S754_nan) = rupee :: lit " 0"
  /\ format_currency (NpFloat S754_nan) = format_currency (PyInt 0).
Proof.
  apply (format_currency_coercion_failure (NpFloat S754_nan) ValueError).
  reflexivity.
Defined.

(* ================================================================== *)
(** ** The grouping loop *)

Lemma drop_last_app (n : nat) (s : pystr) :
  drop_last_chars n s ++ last_chars n s = s.
Proof. apply firstn_skipn. Qed.

Lemma drop_last_length (n : nat) (s : pystr) :
  length (drop_last_chars n s) = (length s - n)%nat.
Proof. unfold drop_last_chars. rewrite length_firstn. lia. Qed.

Lemma last_chars_length (n : nat) (s : pystr) :
  length (last_chars n s) = Nat.min n (length s).
Proof. unfold last_chars. rewrite length_skipn. lia. Qed.

(** With one more character in front, the slices from the end are the same
    as long as they stay clear of it. *)
Lemma drop_last_cons (n : nat) (c : codepoint) (s : pystr) :
  (n <= length s)%nat ->
  drop_last_chars n (c :: s) = c :: drop_last_chars n s.
Proof.
  intros H. unfold drop_last_chars. simpl length.
  replace (S (length s) - n)%nat with (S (length s - n)) by lia.
  reflexivity.
Qed.

Lemma last_chars_cons (n : nat) (c : codepoint) (s : pystr) :
  (n <= length s)%nat -> last_chars n (c :: s) = last_chars n s.
Proof.
  intros H. unfold last_chars. simpl length.
  replace (S (length s) - n)%nat with (S (length s - n)) by lia.
  reflexivity.
Qed.

(** The loop leaves the text as it is: what remains, followed by the groups
    peeled off, is the text it started from. *)
Lemma group_pairs_concat (fuel : nat) :
  forall (rest : pystr) (parts : list pystr),
    fst (group_pairs fuel rest parts) ++ List.concat (snd (group_pairs fuel rest parts))
    = rest ++ List.concat parts.
Proof.
  induction fuel as [ | fuel IH]; intros rest parts; simpl; [reflexivity | ].
  destruct (2 <? length rest)%nat; [ | reflexivity].
  rewrite IH. simpl. rewrite List.app_assoc, drop_last_app. reflexivity.
Qed.

(** The loop ends because its condition fails, not because the fuel is
    spent: with [fuel >= len(rest)] at most two characters remain. *)
Lemma group_pairs_exit (fuel : nat) :
  forall (rest : pystr) (parts : list pystr),
    (length rest <= fuel)%nat ->
    (length (fst (group_pairs fuel rest parts)) <= 2)%nat.
Proof.
  induction fuel as [ | fuel IH]; intros rest parts Hlen; simpl.
  - lia.
  - destruct (2 <? length rest)%nat eqn:E.
    + apply IH. rewrite drop_last_length. apply Nat.ltb_lt in E. lia.
    + apply Nat.ltb_ge in E. exact E.
Qed.

Lemma leading_groups_from (rest : pystr) :
  leading_groups rest = groups_from (length rest) rest [].
Proof. reflexivity. Qed.

Lemma groups_from_short (fuel : nat) (rest : pystr) (parts : list pystr) :
  (length rest <= 2)%nat ->
  groups_from fuel rest parts
  = match rest with [] => parts | _ => rest :: parts end.
Proof.
  intros H. unfold groups_from. destruct fuel; simpl; [reflexivity | ].
  destruct (2 <? length rest)%nat eqn:E; [ | reflexivity].
  apply Nat.ltb_lt in E. lia.
Qed.

Lemma groups_from_step (fuel : nat) (rest : pystr) (parts : list pystr) :
  (2 < length rest)%nat ->
  groups_from (S fuel) rest parts
  = groups_from fuel (drop_last_chars 2 rest) (last_chars 2 rest :: parts).
Proof.
  intros H. unfold groups_from. simpl.
  apply Nat.ltb_lt in H. rewrite H. reflexivity.
Qed.

Lemma groups_from_concat (fuel : nat) (rest : pystr) (parts : list pystr) :
  List.concat (groups_from fuel rest parts) = rest ++ List.concat parts.
Proof.
  unfold groups_from.
  pose proof (group_pairs_concat fuel rest parts) as H.
  destruct (group_pairs fuel rest parts) as [r p]. simpl in H.
  destruct r; simpl in *; exact H.
Qed.

(** One more character in front of a text of even length is a group of its
    own; in front of a text of odd length it joins the first group. *)
Lemma groups_from_cons (c : codepoint) (fuel : nat) :
  forall (r : pystr) (parts : list pystr),
    (length r <= fuel)%nat ->
    groups_from (S fuel) (c :: r) parts
    = if Nat.even (length r) then [c] :: groups_from fuel r parts
      else match groups_from fuel r parts with
           | h :: t => (c :: h) :: t
           | [] => [[c]]
           end.
Proof.
  induction fuel as [ | fuel IH]; intros r parts Hlen.
  - destruct r; [reflexivity | simpl in Hlen; lia].
  - destruct (Nat.le_gt_cases (length r) 2) as [Hs | Hl].
    + destruct r as [ | x [ | y [ | z r]]]; try (simpl in Hs; lia); reflexivity.
    + rewrite (groups_from_step (S fuel) (c :: r)) by (simpl; lia).
      rewrite (groups_from_step fuel r) by lia.
      rewrite drop_last_cons, last_chars_cons by lia.
      rewrite IH by (rewrite drop_last_length; lia).
      rewrite drop_last_length.
      assert (Hev : Nat.even (length r) = Nat.even (length r - 2)).
      { replace (length r) with (S (S (length r - 2))) at 1 by lia.
        apply Nat.even_succ_succ. }
      rewrite Hev. reflexivity.
Qed.

Lemma leading_groups_cons (c : codepoint) (r : pystr) :
  leading_groups (c :: r)
  = if Nat.even (length r) then [c] :: leading_groups r
    else match leading_groups r with
         | h :: t => (c :: h) :: t
         | [] => [[c]]
         end.
Proof.
  rewrite !leading_groups_from. simpl length.
  now apply groups_from_cons.
Qed.

Lemma leading_groups_concat (r : pystr) :
  List.concat (leading_groups r) = r.
Proof.
  rewrite leading_groups_from, groups_from_concat. simpl. apply List.app_nil_r.
Qed.

Lemma leading_groups_nonempty (r : pystr) :
  r <> [] -> leading_groups r <> [].
Proof.
  intros Hr H. apply Hr. rewrite <- (leading_groups_concat r), H. reflexivity.
Qed.

Lemma join_cons_head (sep : pystr) (c : codepoint) (h : pystr)
      (t : list pystr) :
  join sep ((c :: h) :: t) = c :: join sep (h :: t).
Proof. destruct t; reflexivity. Qed.

Lemma join_cons (sep p : pystr) (ps : list pystr) :
  ps <> [] -> join sep (p :: ps) = p ++ sep ++ join sep ps.
Proof. destruct ps; [congruence | reflexivity]. Qed.

(* ================================================================== *)
(** ** Decimal text of an integer *)

Lemma str_int_neg (v : Z) : v < 0 -> str_int v = minus :: str_int (- v).
Proof. destruct v; try lia. reflexivity. Qed.

Lemma str_int_nonneg (v : Z) :
  0 <= v ->
  exists d, str_int v = chars_of_uint d /\ Z.of_N (Pos.of_uint d) = v.
Proof.
  intros Hv. pose proof (DecimalZ.of_to v) as H.
  unfold str_int. destruct (Z.to_int v) as [d | d] eqn:E.
  - exists d. split; [reflexivity | exact H].
  - destruct v; simpl in E; try discriminate. lia.
Qed.

Lemma chars_of_uint_decimal (d : Decimal.uint) :
  digits_only (chars_of_uint d) = chars_of_uint d.
Proof.
  induction d; simpl; [reflexivity | .. ];
    unfold digits_only in *; simpl; rewrite IHd; reflexivity.
Qed.

(** The value of the character at hand, by evaluation of the table. *)
Ltac eval_decimal_value :=
  match goal with
  | |- context [decimal_value ?c] =>
      let r := eval vm_compute in (decimal_value c) in
      change (decimal_value c) with r; cbv iota
  end.

(** Reading the digits back, from an accumulator that is already positive and
    from the start. *)
Lemma int_of_digits_from_pos (d : Decimal.uint) :
  forall acc : positive,
    int_of_digits_from (Zpos acc) (chars_of_uint d)
    = Ok (Zpos (Pos.of_uint_acc d acc)).
Proof.
  induction d; intros acc; cbn [chars_of_uint int_of_digits_from];
    [reflexivity | .. ]; eval_decimal_value; cbn [Pos.of_uint_acc];
    rewrite <- IHd; f_equal; lia.
Qed.

Lemma int_of_digits_chars (d : Decimal.uint) :
  int_of_digits (chars_of_uint d) = Ok (Z.of_N (Pos.of_uint d)).
Proof.
  unfold int_of_digits.
  induction d; cbn [chars_of_uint int_of_digits_from];
    [reflexivity | .. ]; eval_decimal_value; cbn [Pos.of_uint];
    [exact IHd | .. ]; apply int_of_digits_from_pos.
Qed.

(** [int(str(v)) == v] for [v >= 0]. *)
Lemma int_of_digits_str_int (v : Z) :
  0 <= v -> int_of_digits (str_int v) = Ok v.
Proof.
  intros Hv. destruct (str_int_nonneg v Hv) as (d & -> & <-).
  apply int_of_digits_chars.
Qed.

Lemma str_int_digits (v : Z) :
  0 <= v -> digits_only (str_int v) = str_int v.
Proof.
  intros Hv. destruct (str_int_nonneg v Hv) as (d & -> & _).
  apply chars_of_uint_decimal.
Qed.

(* ================================================================== *)
(** ** The formatter on integers *)

Lemma format_currency_int (n : Z) :
  format_currency (PyInt n) = rupee :: lit " " ++ amount n.
Proof.
  unfold format_currency, amount, arranged. cbn [py_int]. cbv zeta.
  destruct (Nat.leb (length (str_int n)) 3); reflexivity.
Qed.

Lemma digits_only_app (s t : pystr) :
  digits_only (s ++ t) = digits_only s ++ digits_only t.
Proof. apply filter_app. Qed.

Lemma digits_only_join (parts : list pystr) :
  digits_only (join [comma] parts) = digits_only (List.concat parts).
Proof.
  induction parts as [ | p ps IH]; [reflexivity | ].
  destruct ps as [ | q ps].
  - simpl. now rewrite List.app_nil_r.
  - change (join [comma] (p :: q :: ps))
      with (p ++ [comma] ++ join [comma] (q :: ps)).
    change (List.concat (p :: q :: ps)) with (p ++ List.concat (q :: ps)).
    rewrite !digits_only_app, IH. reflexivity.
Qed.

(** Grouping only inserts separators. *)
Lemma digits_only_grouped (s : pystr) :
  digits_only (grouped s) = digits_only s.
Proof.
  unfold grouped. cbv zeta.
  rewrite !digits_only_app, digits_only_join, leading_groups_concat.
  change (digits_only [comma]) with (@nil codepoint). simpl.
  rewrite <- digits_only_app, drop_last_app. reflexivity.
Qed.

Lemma digits_only_amount (n : Z) :
  digits_only (amount n) = digits_only (str_int n).
Proof.
  unfold amount, arranged.
  destruct (length (str_int n) <=? 3)%nat;
    [reflexivity | apply digits_only_grouped].
Qed.

(** C8.  The digits of [format_currency(v)], read as a decimal numeral, are
    [v] again, for every [v >= 0]. *)
Theorem format_currency_digits_roundtrip (v : Z) :
  0 <= v ->
  int_of_digits (digits_only (format_currency (PyInt v))) = Ok v.
Proof.
  intros Hv. rewrite format_currency_int.
  change (digits_only (rupee :: lit " " ++ amount v))
    with (digits_only (amount v)).
  rewrite digits_only_amount, str_int_digits by exact Hv.
  now apply int_of_digits_str_int.
Qed.

Lemma format_currency_digits_roundtrip_witness :
  int_of_digits (digits_only (format_currency (PyInt 1234567))) = Ok 1234567.
Proof. apply format_currency_digits_roundtrip. lia. Defined.

(* ================================================================== *)
(** ** Grouping boundaries *)

(** C3, as the code has it.  After the currency sign and a space: 0 and 999
    are shown ungrouped; 1000 has a leading group of one digit before the
    group of three (two digits lead from 10000 on); 100000 has two leading
    groups, of one and of two digits, before the group of three. *)
Theorem format_currency_boundaries :
  format_currency (PyInt 0) = rupee :: lit " 0"
  /\ format_currency (PyInt 999) = rupee :: lit " 999"
  /\ format_currency (PyInt 1000) = rupee :: lit " 1,000"
  /\ format_currency (PyInt 10000) = rupee :: lit " 10,000"
  /\ format_currency (PyInt 100000) = rupee :: lit " 1,00,000"
  /\ map (fun n => group_sizes (format_currency (PyInt n)))
         [0; 999; 1000; 10000; 100000]
     = [[1]; [3]; [1; 3]; [2; 3]; [1; 2; 3]]%nat.
Proof. repeat split; vm_compute; reflexivity. Qed.

(** C3 fails as it is written: the group that leads 1000 has one digit, not
    two, and what is returned for 0 is not the bare text "0". *)
Lemma format_currency_1000_leading_group :
  group_sizes (format_currency (PyInt 1000)) = [1; 3]%nat
  /\ group_sizes (format_currency (PyInt 1000)) <> [2; 3]%nat
  /\ format_currency (PyInt 0) <> lit "0".
Proof. repeat split; vm_compute; congruence. Qed.

(* ================================================================== *)
(** ** Negative amounts *)

Lemma arranged_short (s : pystr) :
  (length s <= 3)%nat -> arranged s = s.
Proof.
  intros H. unfold arranged. apply Nat.leb_le in H. now rewrite H.
Qed.

Lemma arranged_long (s : pystr) :
  (3 < length s)%nat -> arranged s = grouped s.
Proof.
  intros H. unfold arranged. apply Nat.leb_gt in H. now rewrite H.
Qed.

Lemma grouped_cons (c : codepoint) (s : pystr) :
  (3 <= length s)%nat ->
  grouped (c :: s)
  = join [comma] (leading_groups (c :: drop_last_chars 3 s))
    ++ [comma] ++ last_chars 3 s.
Proof.
  intros H. unfold grouped. cbv zeta.
  now rewrite drop_last_cons, last_chars_cons.
Qed.

(** A character put in front of a text of even length, or of at most two
    characters, stays attached to what it precedes. *)
Lemma arranged_cons_even (c : codepoint) (s : pystr) :
  (length s <= 2)%nat \/ Nat.even (length s) = true ->
  arranged (c :: s) = c :: arranged s.
Proof.
  intros H.
  destruct (Nat.le_gt_cases (length s) 2) as [Hs | Hl].
  - rewrite !arranged_short by (simpl; lia). reflexivity.
  - destruct H as [H | Hev]; [lia | ].
    assert (Hn : (4 <= length s)%nat).
    { destruct (Nat.eq_dec (length s) 3) as [E | E]; [ | lia].
      rewrite E in Hev. discriminate. }
    rewrite !arranged_long by (simpl; lia).
    rewrite grouped_cons by lia. unfold grouped. cbv zeta.
    rewrite leading_groups_cons, drop_last_length.
    assert (Hodd : Nat.even (length s - 3) = false).
    { replace (length s) with (S (S (S (S (length s - 4))))) in Hev by lia.
      replace (length s - 3)%nat with (S (length s - 4)) by lia.
      rewrite !Nat.even_succ_succ in Hev.
      rewrite Nat.even_succ, <- Nat.negb_even, Hev. reflexivity. }
    rewrite Hodd.
    destruct (leading_groups (drop_last_chars 3 s)) as [ | h t] eqn:E.
    + exfalso. apply (leading_groups_nonempty (drop_last_chars 3 s)); auto.
      intros Hnil. apply (f_equal (@length codepoint)) in Hnil.
      rewrite drop_last_length in Hnil. simpl in Hnil. lia.
    + rewrite join_cons_head. reflexivity.
Qed.

(** In front of a text of odd length, three characters or more, it becomes a
    group of its own, with a separator after it. *)
Lemma arranged_cons_odd (c : codepoint) (s : pystr) :
  (3 <= length s)%nat -> Nat.odd (length s) = true ->
  arranged (c :: s) = c :: comma :: arranged s.
Proof.
  intros Hn Hodd.
  rewrite (arranged_long (c :: s)) by (simpl; lia).
  rewrite grouped_cons by lia.
  rewrite leading_groups_cons, drop_last_length.
  assert (Hev : Nat.even (length s - 3) = true).
  { replace (length s) with (S (S (S (length s - 3)))) in Hodd by lia.
    rewrite Nat.odd_succ_succ, Nat.odd_succ in Hodd. exact Hodd. }
  rewrite Hev.
  destruct (Nat.eq_dec (length s) 3) as [E3 | E3].
  - rewrite arranged_short by lia.
    assert (Hr : drop_last_chars 3 s = []).
    { apply length_zero_iff_nil. rewrite drop_last_length. lia. }
    rewrite Hr. simpl. unfold last_chars. rewrite E3. reflexivity.
  - rewrite arranged_long by lia.
    rewrite join_cons.
    + reflexivity.
    + apply leading_groups_nonempty. intros Hnil.
      apply (f_equal (@length codepoint)) in Hnil.
      rewrite drop_last_length in Hnil. simpl in Hnil. lia.
Qed.

(** A text of even length, four characters or more, starts with a group of a
    single character. *)
Lemma arranged_even_head (s : pystr) :
  (4 <= length s)%nat -> Nat.even (length s) = true ->
  exists d tail, arranged s = d :: comma :: tail.
Proof.
  intros Hn Hev. rewrite arranged_long by lia. unfold grouped. cbv zeta.
  destruct (drop_last_chars 3 s) as [ | d r] eqn:E.
  - apply (f_equal (@length codepoint)) in E.
    rewrite drop_last_length in E. simpl in E. lia.
  - assert (Hr : Nat.even (length r) = true).
    { apply (f_equal (@length codepoint)) in E.
      rewrite drop_last_length in E. simpl in E.
      replace (length s) with (S (S (S (S (length r))))) in Hev by lia.
      now rewrite !Nat.even_succ_succ in Hev. }
    rewrite leading_groups_cons, Hr.
    destruct (leading_groups r) as [ | h t].
    + exists d, (last_chars 3 s). reflexivity.
    + exists d, (join [comma] (h :: t) ++ [comma] ++ last_chars 3 s).
      reflexivity.
Qed.

(** C10, as the code has it.  For [v < 0] and [n] the number of digits of
    [|v|]: when [n] is even (or [n] is 1) the result is the minus sign
    followed by what is shown for [|v|], so the sign sits in the leading
    group, which from four digits on has one digit; when [n] is odd and at
    least 3 the sign is a group of its own, followed by a separator and by
    what is shown for [|v|]. *)
Theorem format_currency_negative (v : Z) :
  v < 0 ->
  let n := length (str_int (- v)) in
  ((n <= 2)%nat \/ Nat.even n = true ->
   format_currency (PyInt v) = rupee :: lit " -" ++ amount (- v))
  /\
  ((3 <= n)%nat -> Nat.odd n = true ->
   format_currency (PyInt v) = rupee :: lit " -," ++ amount (- v))
  /\
  ((4 <= n)%nat -> Nat.even n = true ->
   exists d tail, amount (- v) = d :: comma :: tail).
Proof.
  intros Hv n. rewrite format_currency_int. unfold amount.
  rewrite (str_int_neg v Hv). fold n. repeat split.
  - intros H. now rewrite arranged_cons_even.
  - intros H3 Hodd. now rewrite arranged_cons_odd.
  - intros H4 Hev. now apply arranged_even_head.
Qed.

Lemma format_currency_negative_witness :
  format_currency (PyInt (-1234)) = rupee :: lit " -" ++ amount 1234
  /\ format_currency (PyInt (-12345)) = rupee :: lit " -," ++ amount 12345
  /\ exists d tail, amount 1234 = d :: comma :: tail.
Proof.
  split; [ | split].
  - apply (proj1 (format_currency_negative (-1234) eq_refl)).
    right. reflexivity.
  - apply (proj1 (proj2 (format_currency_negative (-12345) eq_refl)));
      vm_compute; [lia | reflexivity].
  - apply (proj2 (proj2 (format_currency_negative (-1234) eq_refl)));
      vm_compute; [lia | reflexivity].
Defined.

(** The two amounts C10 names. *)
Lemma format_currency_negative_examples :
  format_currency (PyInt (-1234)) = rupee :: lit " -1,234"
  /\ format_currency (PyInt (-12345)) = rupee :: lit " -,12,345".
Proof. split; vm_compute; reflexivity. Qed.

(** C10 fails as it is written: with six digits the sign is not a group of
    its own, it is attached to the leading digit. *)
Lemma format_currency_negative_six_digits :
  format_currency (PyInt (-123456)) = rupee :: lit " -1,23,456"
  /\ starts_with (rupee :: lit " -,") (format_currency (PyInt (-123456)))
     = false.
Proof. split; vm_compute; reflexivity. Qed.

(* ================================================================== *)
(** ** Substring test *)

Lemma starts_with_prefix (needle hay : pystr) :
  starts_with needle hay = true <-> exists post, hay = needle ++ post.
Proof.
  revert hay. induction needle as [ | a needle IH]; intros hay; simpl.
  - split; [intros _; now exists hay | reflexivity].
  - destruct hay as [ | b hay].
    + split; [discriminate | intros [post H]; discriminate].
    + rewrite andb_true_iff, N.eqb_eq, IH. split.
      * intros [-> [post ->]]. now exists post.
      * intros [post [= -> ->]]. split; [reflexivity | now exists post].
Qed.

Lemma py_in_contains (needle hay : pystr) :
  py_in needle hay = true <-> contains needle hay.
Proof.
  unfold contains. induction hay as [ | b hay IH].
  - simpl. rewrite orb_false_r, starts_with_prefix. split.
    + intros [post H]. now exists [], post.
    + intros (pre & post & H). destruct pre; simpl in H.
      * now exists post.
      * discriminate.
  - cbn [py_in]. rewrite orb_true_iff, starts_with_prefix, IH. split.
    + intros [[post H] | (pre & post & H)].
      * now exists [], post.
      * exists (b :: pre), post. simpl. now rewrite H.
    + intros (pre & post & H). destruct pre as [ | c pre]; simpl in H.
      * left. now exists post.
      * right. injection H as _ H. now exists pre, post.
Qed.

Lemma py_in_false (needle hay : pystr) :
  py_in needle hay = false <-> ~ contains needle hay.
Proof.
  rewrite <- py_in_contains. destruct (py_in needle hay); split;
    congruence.
Qed.

(* ================================================================== *)
(** ** Number extraction *)

Lemma or_default_spec (num : option Z) (d : Z) :
  or_default num d
  = match num with
    | Some 0 | None => d
    | Some n => n
    end.
Proof. destruct num as [[ | p | p] | ]; reflexivity. Qed.

Lemma int_of_digits_from_decimal (s : pystr) :
  forall acc, forallb is_decimal s = true ->
              exists n, int_of_digits_from acc s = Ok n.
Proof.
  induction s as [ | c s IH]; intros acc; simpl.
  - intros _. now exists acc.
  - unfold is_decimal at 1. destruct (decimal_value c) as [d | ];
      simpl; [apply IH | discriminate].
Qed.

Lemma int_of_digits_from_raises (s : pystr) :
  forall acc, forallb is_decimal s = false ->
              int_of_digits_from acc s = Raise ValueError.
Proof.
  induction s as [ | c s IH]; intros acc; simpl.
  - discriminate.
  - unfold is_decimal at 1. destruct (decimal_value c) as [d | ];
      simpl; [apply IH | reflexivity].
Qed.

Lemma token_converts_spec (t : pystr) :
  token_converts t
  = forallb is_decimal t && (length t <=? int_max_str_digits)%nat.
Proof. reflexivity. Qed.

Lemma int_of_token_returns (t : pystr) (n : Z) :
  int_of_token t = Ok n ->
  int_of_digits t = Ok n /\ (length t <= int_max_str_digits)%nat.
Proof.
  unfold int_of_token.
  destruct (int_max_str_digits <? length t)%nat eqn:E; [discriminate | ].
  apply Nat.ltb_ge in E. now split.
Qed.

Lemma int_of_token_converts (t : pystr) :
  token_converts t = true -> exists n, int_of_token t = Ok n.
Proof.
  rewrite token_converts_spec, andb_true_iff. intros [Hd Hl].
  apply Nat.leb_le in Hl. unfold int_of_token.
  apply Nat.ltb_ge in Hl. rewrite Hl.
  now apply int_of_digits_from_decimal.
Qed.

Lemma int_of_token_refuses (t : pystr) :
  token_converts t = false -> int_of_token t = Raise ValueError.
Proof.
  rewrite token_converts_spec, andb_false_iff. unfold int_of_token.
  destruct (int_max_str_digits <? length t)%nat eqn:E; [reflexivity | ].
  apply Nat.ltb_ge in E. intros [Hd | Hl].
  - now apply int_of_digits_from_raises.
  - apply Nat.leb_gt in Hl. lia.
Qed.

(** The comprehension returns when [int] accepts every token it converts,
    and raises [ValueError] as soon as it refuses one. *)
Lemma map_result_int_of_token (toks : list pystr) :
  if forallb token_converts toks
  then exists nums, map_result int_of_token toks = Ok nums
                    /\ length nums = length toks
  else map_result int_of_token toks = Raise ValueError.
Proof.
  induction toks as [ | t toks IH]; cbn [forallb map_result].
  - now exists [].
  - destruct (token_converts t) eqn:Et; cbn [andb].
    + destruct (int_of_token_converts t Et) as [n Hn].
      rewrite Hn. cbn [bind].
      destruct (forallb token_converts toks).
      * destruct IH as (nums & -> & Hlen). exists (n :: nums).
        simpl. now rewrite Hlen.
      * now rewrite IH.
    + now rewrite (int_of_token_refuses t Et).
Qed.

(** [extract_number] raises exactly when some token of [text.split()] passes
    [isdigit] and [int] refuses it: it holds a character that is no decimal
    digit, or it has more digits than the interpreter converts.  The token
    need not be the first number of the text. *)
Theorem extract_number_raises (text : pystr) :
  extract_number text = Raise ValueError
  <-> exists tok, In tok (split text) /\ isdigit tok = true
                  /\ (forallb is_decimal tok = false
                      \/ (int_max_str_digits < length tok)%nat).
Proof.
  assert (Hconv : forall t, token_converts t = false
                            <-> forallb is_decimal t = false
                                \/ (int_max_str_digits < length t)%nat).
  { intros t. rewrite token_converts_spec, andb_false_iff, Nat.leb_gt.
    reflexivity. }
  unfold extract_number.
  pose proof (map_result_int_of_token (filter isdigit (split text))) as H.
  destruct (forallb token_converts (filter isdigit (split text))) eqn:E.
  - destruct H as (nums & -> & _). cbn [bind]. split; [discriminate | ].
    intros (tok & Hin & Hd & Hbad). exfalso.
    apply Hconv in Hbad. rewrite forallb_forall in E.
    rewrite (E tok) in Hbad; [discriminate | ].
    apply filter_In. now split.
  - rewrite H. cbn [bind]. split; [intros _ | reflexivity].
    assert (Hex : existsb (fun t => negb (token_converts t))
                    (filter isdigit (split text)) = true).
    { clear H. induction (filter isdigit (split text)) as [ | t l IH];
        cbn [forallb existsb] in *; [discriminate | ].
      destruct (token_converts t); cbn [andb negb orb] in *; auto. }
    apply existsb_exists in Hex. destruct Hex as (tok & Hin & Hneg).
    apply filter_In in Hin. destruct Hin as [Hin Hd].
    exists tok. repeat split; try assumption.
    apply Hconv. now apply negb_true_iff.
Qed.

Lemma extract_number_total (text : pystr) :
  extract_number text = Raise ValueError
  \/ exists num, extract_number text = Ok num.
Proof.
  unfold extract_number.
  pose proof (map_result_int_of_token (filter isdigit (split text))) as H.
  destruct (forallb token_converts (filter isdigit (split text))).
  - destruct H as (nums & -> & _). right. simpl. eauto.
  - rewrite H. now left.
Qed.

(* ================================================================== *)
(** ** The chat handler *)

Section ChatFacts.

Variable predict : Z -> Z -> Z -> float64.
Variable str_lower : pystr -> pystr.
Variable show_round2 : value -> pystr.

(** The handler is the chain applied to the lower-cased query, once the
    number extraction has returned; when the extraction raises, so does
    the handler. *)
Lemma agent_chat_respond (query : pystr) (num : option Z) :
  extract_number (str_lower query) = Ok num ->
  agent_chat predict str_lower show_round2 query
  = respond predict show_round2 (str_lower query) num.
Proof. intros H. unfold agent_chat. now rewrite H. Qed.

Lemma agent_chat_raises (query : pystr) (e : exn) :
  extract_number (str_lower query) = Raise e ->
  agent_chat predict str_lower show_round2 query = Raise e.
Proof. intros H. unfold agent_chat. now rewrite H. Qed.

Lemma respond_forecast (q : pystr) (num : option Z) :
py_in (lit "forecast") q = true ->
respond predict show_round2 q num
= forecast_reply predict (or_default num 200000).
Proof. intros H. unfold respond. now rewrite H. Qed.

(** C5.  The chain answers with the first branch whose keyword the text
    contains, in the order forecast, roi, profit, increase / what if; the
    profit branch has no use for the number; a text with none of the
    keywords gets the help message. *)
Theorem respond_first_match (q : pystr) (num : option Z) :
  (contains (lit "forecast") q ->
   respond predict show_round2 q num
   = forecast_reply predict (or_default num 200000))
  /\
  (~ contains (lit "forecast") q -> contains (lit "roi") q ->
   respond predict show_round2 q num
   = roi_reply predict show_round2 (or_default num 200000))
  /\
  (~ contains (lit "forecast") q -> ~ contains (lit "roi") q ->
   contains (lit "profit") q ->
   respond predict show_round2 q num = profit_reply predict)
  /\
  (~ contains (lit "forecast") q -> ~ contains (lit "roi") q ->
   ~ contains (lit "profit") q ->
   contains (lit "increase") q \/ contains (lit "what if") q ->
   respond predict show_round2 q num
   = scenario_reply predict (or_default num 50000))
  /\
  (~ contains (lit "forecast") q -> ~ contains (lit "roi") q ->
   ~ contains (lit "profit") q -> ~ contains (lit "increase") q ->
   ~ contains (lit "what if") q ->
   respond predict show_round2 q num = Ok help_message).
Proof.
  unfold respond.
  repeat split;
    repeat match goal with
      | |- _ -> _ => intros ?
      | H : contains _ _ |- _ => apply py_in_contains in H; rewrite H
      | H : ~ contains _ _ |- _ => apply py_in_false in H; rewrite H
      end; try reflexivity.
  destruct H2 as [H2 | H2]; apply py_in_contains in H2; rewrite H2;
    [ | rewrite orb_true_r]; reflexivity.
Qed.

End ChatFacts.

Lemma respond_first_match_witness :
  respond sample_predict sample_round2
          (lit "forecast the roi and profit if i increase spend") (Some 5)
  = forecast_reply sample_predict 5
  /\ respond sample_predict sample_round2
             (lit "roi on profit, what if i increase it") (Some 5)
     = roi_reply sample_predict sample_round2 5
  /\ respond sample_predict sample_round2
             (lit "profit if i increase spend by 5") (Some 5)
     = profit_reply sample_predict
  /\ respond sample_predict sample_round2 (lit "what if i spend 5") (Some 5)
     = scenario_reply sample_predict 5
  /\ respond sample_predict sample_round2 (lit "hello 5") (Some 5)
     = Ok help_message.
Proof.
  split; [ | split; [ | split; [ | split]]].
  - apply (proj1 (respond_first_match sample_predict sample_round2
                    (lit "forecast the roi and profit if i increase spend")
                    (Some 5))).
    exists [], (lit " the roi and profit if i increase spend"). reflexivity.
  - apply (proj1 (proj2 (respond_first_match sample_predict sample_round2
                           (lit "roi on profit, what if i increase it")
                           (Some 5)))).
    + apply py_in_false. reflexivity.
    + apply py_in_contains. reflexivity.
  - apply (proj1 (proj2 (proj2
             (respond_first_match sample_predict sample_round2
                (lit "profit if i increase spend by 5") (Some 5)))));
      (apply py_in_false; reflexivity) || (apply py_in_contains; reflexivity).
  - apply (proj1 (proj2 (proj2 (proj2
             (respond_first_match sample_predict sample_round2
                (lit "what if i spend 5") (Some 5))))));
      try (apply py_in_false; reflexivity).
    right. apply py_in_contains. reflexivity.
  - apply (proj2 (proj2 (proj2 (proj2
             (respond_first_match sample_predict sample_round2
                (lit "hello 5") (Some 5))))));
      apply py_in_false; reflexivity.
Defined.

(** On a text of ASCII characters [ascii_lower] is [str.lower], and a
    lower-case keyword of the query is still there after it. *)
Lemma ascii_lower_contains (kw query : pystr) :
  ascii_lower kw = kw -> contains kw query ->
  contains kw (ascii_lower query).
Proof.
  intros Hkw (pre & post & ->).
  exists (ascii_lower pre), (ascii_lower post).
  unfold ascii_lower in *. now rewrite !map_app, Hkw.
Qed.

(** So a query that names a forecast gets one, for the number found in it or
    for the default. *)
Lemma agent_chat_forecast
      (predict : Z -> Z -> Z -> float64) (show_round2 : value -> pystr)
      (query : pystr) (num : option Z) :
  contains (lit "forecast") query ->
  extract_number (ascii_lower query) = Ok num ->
  agent_chat predict ascii_lower show_round2 query
  = forecast_reply predict (or_default num 200000).
Proof.
  intros Hkw Hnum. rewrite (agent_chat_respond _ _ _ _ _ Hnum).
  apply respond_forecast, py_in_contains.
  now apply ascii_lower_contains.
Qed.

(** The claim's own examples, on the sample run-time. *)
Lemma sample_chat_examples :
  sample_chat (lit "Forecast revenue for 250000 marketing")
    = forecast_reply sample_predict 250000
  /\ sample_chat (lit "what is the roi")
    = roi_reply sample_predict sample_round2 200000
  /\ sample_chat (lit "profit for 12 stores") = profit_reply sample_predict
  /\ sample_chat (lit "What if I increase spend")
    = scenario_reply sample_predict 50000
  /\ sample_chat (lit "hello") = Ok help_message.
Proof. repeat split; vm_compute; reflexivity. Qed.

(** C2, where the code departs from it.  The query "forecast 0" has the
    number 0 in it, and the forecast is made for the default 200000, which is
    another answer than the one for 0; the same for "roi 0". *)
Theorem forecast_zero_takes_default
        (predict : Z -> Z -> Z -> float64) (show_round2 : value -> pystr) :
  extract_number (lit "forecast 0") = Ok (Some 0)
  /\ agent_chat predict ascii_lower show_round2 (lit "forecast 0")
     = forecast_reply predict 200000
  /\ forecast_reply predict 200000 <> forecast_reply predict 0
  /\ agent_chat predict ascii_lower show_round2 (lit "roi 0")
     = roi_reply predict show_round2 200000.
Proof.
  repeat split.
  intros H.
  apply (f_equal (fun r => match r with
                           | Ok s => nth 24 s 0%N
                           | Raise _ => 0%N
                           end)) in H.
  vm_compute in H. discriminate.
Qed.

(** C4, where the code departs from it.  The superscript two passes
    [isdigit] and is refused by [int]: the query "roi ²" makes the handler
    raise [ValueError], whatever the model. *)
Theorem agent_chat_superscript_raises
        (predict : Z -> Z -> Z -> float64) (show_round2 : value -> pystr) :
  isdigit [178%N] = true
  /\ int_of_digits [178%N] = Raise ValueError
  /\ agent_chat predict ascii_lower show_round2 (lit "roi " ++ [178%N])
     = Raise ValueError.
Proof. repeat split. Qed.

(* ================================================================== *)
(** ** Integers as floats *)

Lemma digits2_pos_iter_xO (p k : positive) :
  digits2_pos (Pos.iter xO p k) = (digits2_pos p + k)%positive.
Proof.
  revert p. induction k using Pos.peano_ind; intros p.
  - simpl. lia.
  - rewrite Pos.iter_succ. simpl. rewrite IHk. lia.
Qed.

(** A positive number of [d] binary digits is at least [2 ^ (d - 1)]. *)
Lemma digits2_pos_bound (p : positive) :
  2 ^ (Zpos (digits2_pos p) - 1) <= Zpos p.
Proof.
  induction p as [p IH | p IH | ]; simpl digits2_pos;
    try (rewrite Pos2Z.inj_succ;
         replace (Z.succ (Zpos (digits2_pos p)) - 1)
           with (Z.succ (Zpos (digits2_pos p) - 1)) by lia;
         rewrite Z.pow_succ_r by lia; lia).
  simpl. lia.
Qed.

Lemma digits2_pos_small (p : positive) :
  Zpos p < 2 ^ 53 -> Zpos (digits2_pos p) <= 53.
Proof.
  intros H. destruct (Z.le_gt_cases (Zpos (digits2_pos p)) 53) as [ | Hgt];
    [assumption | exfalso].
  pose proof (digits2_pos_bound p) as Hb.
  assert (2 ^ 53 <= 2 ^ (Zpos (digits2_pos p) - 1))
    by (apply Z.pow_le_mono_r; lia).
  lia.
Qed.

Lemma shiftl_iter_xO (p k : positive) :
  Z.shiftl (Zpos (Pos.iter xO p k)) (Zneg k) = Zpos p.
Proof.
  rewrite <- Z.shiftr_opp_r. simpl Z.opp.
  rewrite Z.shiftr_div_pow2 by lia.
  assert (H : Zpos (Pos.iter xO p k) = Zpos p * 2 ^ Zpos k).
  { revert p. induction k using Pos.peano_ind; intros p.
    - simpl. lia.
    - rewrite Pos.iter_succ, Pos2Z.inj_succ, Z.pow_succ_r by lia.
      change (Zpos (Pos.iter xO p k)~0) with (2 * Zpos (Pos.iter xO p k)).
      rewrite IHk. lia. }
  rewrite H. apply Z.div_mul. lia.
Qed.

(** Rounding leaves a mantissa alone that already has the exponent of its
    magnitude. *)
Lemma binary_round_aux_canonical (s : bool) (m : positive) (e : Z) :
  fexp 53 1024 (Zpos (digits2_pos m) + e) = e -> e <= 971 ->
  binary_round_aux 53 1024 s (Zpos m) e loc_Exact = S754_finite s m e.
Proof.
  intros Hc He. unfold binary_round_aux, shr_fexp.
  cbn [Zdigits2 shr_record_of_loc].
  rewrite Hc, Z.sub_diag.
  cbn [shr shr_m loc_of_shr_record round_nearest_even Zdigits2
       shr_record_of_loc].
  rewrite Hc, Z.sub_diag. cbn [shr shr_m].
  change (1024 - 53) with 971.
  apply Z.leb_le in He. rewrite He. reflexivity.
Qed.

Lemma binary_round_small (s : bool) (p : positive) :
  Zpos (digits2_pos p) <= 53 ->
  exists m e, binary_round 53 1024 s p 0 = S754_finite s m e
              /\ Z.shiftl (Zpos m) e = Zpos p.
Proof.
  intros Hd. unfold binary_round. rewrite Z.add_0_r.
  assert (Hf : fexp 53 1024 (Zpos (digits2_pos p))
               = Zpos (digits2_pos p) - 53)
    by (unfold fexp, emin; lia).
  rewrite Hf. unfold shl_align. rewrite Z.sub_0_r.
  destruct (Zpos (digits2_pos p) - 53) as [ | q | q] eqn:E; try lia.
  - rewrite binary_round_aux_canonical.
    + exists p, 0. split; reflexivity.
    + rewrite Z.add_0_r. unfold fexp, emin. lia.
    + lia.
  - rewrite binary_round_aux_canonical.
    + eexists _, _. split; [reflexivity | ]. apply shiftl_iter_xO.
    + rewrite digits2_pos_iter_xO. unfold fexp, emin. lia.
    + lia.
Qed.

(** Below [2 ^ 53] in magnitude an [int] converts to a float without
    rounding: the conversion returns, and [int()] of the float is the
    integer again. *)
Lemma float_of_int_exact (z : Z) :
  Z.abs z < 2 ^ 53 ->
  exists x, float_of_int z = Ok x /\ float_trunc x = Ok z.
Proof.
  intros Hz. unfold float_of_int, f64_of_Z, binary_normalize.
  destruct z as [ | p | p].
  - exists f64_zero. split; reflexivity.
  - destruct (binary_round_small false p) as (m & e & -> & Hm).
    + apply digits2_pos_small. exact Hz.
    + exists (S754_finite false m e). split; [reflexivity | ].
      simpl. now rewrite Hm.
  - destruct (binary_round_small true p) as (m & e & -> & Hm).
    + apply digits2_pos_small. exact Hz.
    + exists (S754_finite true m e). split; [reflexivity | ].
      simpl. now rewrite Hm.
Qed.

Lemma float_of_int_value (z : Z) (x : float64) :
  float_of_int z = Ok x -> x = f64_of_Z z.
Proof.
  unfold float_of_int. destruct (f64_of_Z z); intros [= <-]; reflexivity.
Qed.

Lemma float_of_int_small (z : Z) :
  Z.abs z < 2 ^ 53 -> float_of_int z = Ok (f64_of_Z z).
Proof.
  intros Hz. destruct (float_of_int_exact z Hz) as (x & Hx & _).
  rewrite Hx. f_equal. now apply float_of_int_value.
Qed.

(* ================================================================== *)
(** ** Metrics of a forecast *)

(** On a forecast and an [int] that converts, the three metric functions
    return a [numpy.float64] and raise nothing. *)
Lemma roi_tool_forecast (x : float64) (marketing : Z) :
  Z.abs marketing < 2 ^ 53 ->
  roi_tool (NpFloat x) (PyInt marketing)
  = Ok (NpFloat (f64_div (f64_sub x (f64_of_Z marketing))
                         (f64_of_Z marketing))).
Proof.
  intros H. unfold roi_tool. simpl.
  rewrite (float_of_int_small _ H). simpl.
  rewrite (float_of_int_small _ H). reflexivity.
Qed.

Lemma profit_tool_forecast (x : float64) (store online : Z) :
  Z.abs store < 2 ^ 53 -> Z.abs online < 2 ^ 53 ->
  profit_tool (NpFloat x) (PyInt store) (PyInt online)
  = Ok (NpFloat (f64_sub (f64_sub x (f64_of_Z store)) (f64_of_Z online))).
Proof.
  intros Hs Ho. unfold profit_tool. simpl.
  rewrite (float_of_int_small _ Hs). simpl.
  rewrite (float_of_int_small _ Ho). reflexivity.
Qed.

Lemma margin_tool_forecast (p x : float64) :
  margin_tool (NpFloat p) (NpFloat x)
  = Ok (NpFloat (f64_mul (f64_div p x) (f64_of_Z 100))).
Proof. reflexivity. Qed.

Lemma on_slider_small (lo hi step v : Z) :
  0 <= lo -> hi < 2 ^ 53 -> on_slider lo hi step v -> Z.abs v < 2 ^ 53.
Proof. intros Hlo Hhi [Hv _]. lia. Qed.

Section TabFacts.

Variable predict : Z -> Z -> Z -> float64.
Variable show_round2 : value -> pystr.

Lemma run_forecast_small (marketing store online : Z) :
  Z.abs marketing < 2 ^ 53 -> Z.abs store < 2 ^ 53 ->
  Z.abs online < 2 ^ 53 ->
  let x := predict marketing store online in
  let p := f64_sub (f64_sub x (f64_of_Z store)) (f64_of_Z online) in
  run_forecast predict marketing store online
  = Ok (Metrics (NpFloat x) (NpFloat p)
                (NpFloat (f64_mul (f64_div p x) (f64_of_Z 100)))
                (NpFloat (f64_div (f64_sub x (f64_of_Z marketing))
                                  (f64_of_Z marketing)))).
Proof.
  intros Hm Hs Ho x p. unfold run_forecast, forecast_tool. cbv zeta.
  rewrite (profit_tool_forecast _ _ _ Hs Ho). cbn [bind].
  rewrite margin_tool_forecast. cbn [bind].
  rewrite (roi_tool_forecast _ _ Hm). reflexivity.
Qed.

(** At every position of the three sliders, whatever the fitted model
    predicts there, a click on Run Forecast raises nothing: the four metrics
    are [numpy.float64] values and the tab shows its four lines. *)
Theorem tab1_run_forecast_shows (marketing store online : Z) :
  on_slider 50000 500000 10000 marketing ->
  on_slider 100000 300000 10000 store ->
  on_slider 50000 200000 5000 online ->
  exists x p g r,
    run_forecast predict marketing store online
    = Ok (Metrics (NpFloat x) (NpFloat p) (NpFloat g) (NpFloat r))
    /\ tab1 predict show_round2 marketing store online true false
       = Done (Tab1View
                 (forecast_lines show_round2
                    (Metrics (NpFloat x) (NpFloat p) (NpFloat g) (NpFloat r)))
                 None).
Proof.
  intros Hm Hs Ho.
  apply on_slider_small in Hm; [ | lia | lia].
  apply on_slider_small in Hs; [ | lia | lia].
  apply on_slider_small in Ho; [ | lia | lia].
  pose proof (run_forecast_small marketing store online Hm Hs Ho) as H.
  cbv zeta in H. do 4 eexists. split; [exact H | ].
  unfold tab1. rewrite H. reflexivity.
Qed.

End TabFacts.

Lemma tab1_run_forecast_shows_witness :
  exists x p g r,
    run_forecast sample_predict 200000 200000 100000
    = Ok (Metrics (NpFloat x) (NpFloat p) (NpFloat g) (NpFloat r))
    /\ tab1 sample_predict sample_round2 200000 200000 100000 true false
       = Done (Tab1View
                 (forecast_lines sample_round2
                    (Metrics (NpFloat x) (NpFloat p) (NpFloat g) (NpFloat r)))
                 None).
Proof.
  apply (tab1_run_forecast_shows sample_predict sample_round2
           200000 200000 100000);
    (split; [lia | reflexivity]).
Defined.

(* ================================================================== *)
(** ** What the number extraction returns *)

Lemma int_of_digits_from_nonneg (s : pystr) :
  forall acc n, 0 <= acc -> int_of_digits_from acc s = Ok n -> 0 <= n.
Proof.
  induction s as [ | c s IH]; intros acc n Hacc;
    cbn [int_of_digits_from].
  - intros [= <-]. exact Hacc.
  - unfold decimal_value.
    destruct (find (fun b => in_range c (b, (b + 9)%N)) decimal_runs);
      [ | discriminate].
    apply IH. lia.
Qed.

Lemma map_result_head {A B : Type} (f : A -> result B) (x : A)
      (xs : list A) (ys : list B) :
  map_result f (x :: xs) = Ok ys ->
  exists y ys', ys = y :: ys' /\ f x = Ok y.
Proof.
  simpl. destruct (f x) as [y | e]; simpl; [ | discriminate].
  destruct (map_result f xs) as [ys' | e]; simpl; [ | discriminate].
  intros [= <-]. now exists y, ys'.
Qed.

Lemma map_result_nil {A B : Type} (f : A -> result B) (xs : list A) :
  map_result f xs = Ok [] -> xs = [].
Proof.
  destruct xs as [ | x xs]; [reflexivity | ].
  intros H. destruct (map_result_head f x xs [] H) as (y & ys' & Hys & _).
  discriminate.
Qed.

Lemma extract_number_nonneg (text : pystr) (n : Z) :
  extract_number text = Ok (Some n) -> 0 <= n.
Proof.
  unfold extract_number.
  destruct (map_result int_of_token (filter isdigit (split text)))
    as [nums | e] eqn:E; simpl; [ | discriminate].
  destruct nums as [ | m nums]; intros [= <-].
  destruct (filter isdigit (split text)) as [ | tok rest];
    [discriminate | ].
  destruct (map_result_head _ _ _ _ E) as (y & ys' & [= <- <-] & Hy).
  apply int_of_token_returns in Hy. destruct Hy as [Hy _].
  apply (int_of_digits_from_nonneg tok 0 m); [lia | exact Hy].
Qed.

(** When [extract_number] returns, it returns [None] exactly for a text none
    of whose whitespace-separated tokens passes [isdigit], and otherwise the
    value of the first token that does, which is never negative: a sign, a
    decimal point or any other character glued to the digits hides the
    number. *)
Theorem extract_number_returns (text : pystr) (r : option Z) :
  extract_number text = Ok r ->
  match r with
  | None => filter isdigit (split text) = []
  | Some n =>
      0 <= n
      /\ exists tok rest, filter isdigit (split text) = tok :: rest
                          /\ int_of_digits tok = Ok n
  end.
Proof.
  unfold extract_number.
  destruct (map_result int_of_token (filter isdigit (split text)))
    as [nums | e] eqn:E; simpl; [ | discriminate].
  intros [= <-]. destruct nums as [ | n nums].
  - now apply (map_result_nil int_of_token).
  - destruct (filter isdigit (split text)) as [ | tok rest];
      [discriminate | ].
    destruct (map_result_head _ _ _ _ E) as (y & ys' & [= <- <-] & Hy).
    apply int_of_token_returns in Hy. destruct Hy as [Hy _].
    split.
    + apply (int_of_digits_from_nonneg tok 0 n); [lia | exact Hy].
    + now exists tok, rest.
Qed.

Lemma extract_number_returns_witness :
  0 <= 250000
  /\ exists tok rest,
      filter isdigit (split (lit "forecast -7 for 250000 or 9.5 or 12"))
      = tok :: rest
      /\ int_of_digits tok = Ok 250000.
Proof.
  apply (extract_number_returns
           (lit "forecast -7 for 250000 or 9.5 or 12") (Some 250000)).
  vm_compute. reflexivity.
Defined.

(* ================================================================== *)
(** ** Replies of the chat handler *)

Section ReplyFacts.

Variable predict : Z -> Z -> Z -> float64.
Variable str_lower : pystr -> pystr.
Variable show_round2 : value -> pystr.

Lemma roi_reply_returns (val : Z) :
  Z.abs val < 2 ^ 53 ->
  exists reply, roi_reply predict show_round2 val = Ok reply.
Proof.
  intros H. unfold roi_reply, forecast_tool. cbv zeta.
  rewrite (roi_tool_forecast _ _ H). simpl. eauto.
Qed.

Lemma profit_reply_returns :
  exists reply, profit_reply predict = Ok reply.
Proof.
  unfold profit_reply, forecast_tool. cbv zeta.
  rewrite profit_tool_forecast by (simpl; lia). simpl. eauto.
Qed.

Lemma scenario_reply_returns (delta : Z) :
  exists reply, scenario_reply predict delta = Ok reply.
Proof. unfold scenario_reply. simpl. eauto. Qed.

Lemma respond_returns (q : pystr) (num : option Z) :
  Z.abs (or_default num 200000) < 2 ^ 53 ->
  exists reply, respond predict show_round2 q num = Ok reply.
Proof.
  intros H. unfold respond.
  destruct (py_in (lit "forecast") q); [unfold forecast_reply; eauto | ].
  destruct (py_in (lit "roi") q); [now apply roi_reply_returns | ].
  destruct (py_in (lit "profit") q); [apply profit_reply_returns | ].
  destruct (py_in (lit "increase") q || py_in (lit "what if") q);
    [apply scenario_reply_returns | eauto].
Qed.

(** Once [extract_number] has returned, nothing else in the handler raises:
    for a number below [2 ^ 53], or none, every query gets a reply, whatever
    the fitted model predicts. *)
Theorem agent_chat_answers (query : pystr) (num : option Z) :
  extract_number (str_lower query) = Ok num ->
  (forall n, num = Some n -> n < 2 ^ 53) ->
  exists reply, agent_chat predict str_lower show_round2 query = Ok reply.
Proof.
  intros Hnum Hsmall.
  rewrite (agent_chat_respond _ _ _ _ _ Hnum).
  apply respond_returns.
  destruct num as [n | ]; simpl.
  - pose proof (extract_number_nonneg _ _ Hnum) as Hn.
    specialize (Hsmall n eq_refl).
    destruct (n =? 0); lia.
  - lia.
Qed.

(** A number other than 0 found in the query is the one the forecast, the
    ROI and the scenario are computed for. *)
Theorem agent_chat_uses_number (query : pystr) (n : Z) :
  extract_number (str_lower query) = Ok (Some n) -> n <> 0 ->
  let q := str_lower query in
  (contains (lit "forecast") q ->
   agent_chat predict str_lower show_round2 query
   = forecast_reply predict n)
  /\
  (~ contains (lit "forecast") q -> contains (lit "roi") q ->
   agent_chat predict str_lower show_round2 query
   = roi_reply predict show_round2 n)
  /\
  (~ contains (lit "forecast") q -> ~ contains (lit "roi") q ->
   ~ contains (lit "profit") q ->
   contains (lit "increase") q \/ contains (lit "what if") q ->
   agent_chat predict str_lower show_round2 query
   = scenario_reply predict n).
Proof.
  intros Hnum Hn q.
  rewrite (agent_chat_respond _ _ _ _ _ Hnum). fold q.
  assert (Hd : forall d, or_default (Some n) d = n).
  { intros d. simpl. apply Z.eqb_neq in Hn. now rewrite Hn. }
  unfold respond. rewrite !Hd.
  split; [ | split].
  - intros H. apply py_in_contains in H. now rewrite H.
  - intros Hf Hr. apply py_in_false in Hf. apply py_in_contains in Hr.
    now rewrite Hf, Hr.
  - intros Hf Hr Hp Hs. apply py_in_false in Hf, Hr, Hp.
    rewrite Hf, Hr, Hp.
    destruct Hs as [Hs | Hs]; apply py_in_contains in Hs; rewrite Hs;
      [ | rewrite orb_true_r]; reflexivity.
Qed.

End ReplyFacts.

Lemma agent_chat_answers_witness :
  exists reply, sample_chat (lit "What is the ROI for 250000?") = Ok reply.
Proof.
  apply (agent_chat_answers sample_predict ascii_lower sample_round2
           (lit "What is the ROI for 250000?") None).
  - vm_compute. reflexivity.
  - discriminate.
Defined.

Lemma agent_chat_uses_number_witness :
  sample_chat (lit "ROI for 250000 marketing")
  = roi_reply sample_predict sample_round2 250000.
Proof.
  apply (proj1 (proj2 (agent_chat_uses_number
                         sample_predict ascii_lower sample_round2
                         (lit "ROI for 250000 marketing") 250000
                         eq_refl ltac:(discriminate)))).
  - apply py_in_false. reflexivity.
  - apply py_in_contains. reflexivity.
Defined.

(* ================================================================== *)
(** ** What grouping keeps *)

(** Whatever is filtered out of the text, grouping does not change it, as
    long as the separator is not among what is kept. *)
Lemma filter_join (p : codepoint -> bool) (parts : list pystr) :
  p comma = false ->
  filter p (join [comma] parts) = filter p (List.concat parts).
Proof.
  intros Hp. induction parts as [ | q ps IH]; [reflexivity | ].
  destruct ps as [ | q' ps].
  - simpl. now rewrite List.app_nil_r.
  - change (join [comma] (q :: q' :: ps))
      with (q ++ [comma] ++ join [comma] (q' :: ps)).
    change (List.concat (q :: q' :: ps))
      with (q ++ List.concat (q' :: ps)).
    rewrite !filter_app, IH. simpl. now rewrite Hp.
Qed.

Lemma filter_grouped (p : codepoint -> bool) (s : pystr) :
  p comma = false -> filter p (grouped s) = filter p s.
Proof.
  intros Hp. unfold grouped. cbv zeta.
  rewrite !filter_app, filter_join, leading_groups_concat by exact Hp.
  simpl. rewrite Hp. simpl.
  rewrite <- filter_app, drop_last_app. reflexivity.
Qed.

Lemma filter_arranged (p : codepoint -> bool) (s : pystr) :
  p comma = false -> filter p (arranged s) = filter p s.
Proof.
  intros Hp. unfold arranged.
  destruct (length s <=? 3)%nat; [reflexivity | now apply filter_grouped].
Qed.

Lemma forallb_filter (p : codepoint -> bool) (s : pystr) :
  forallb p s = true <-> filter (fun c => negb (p c)) s = [].
Proof.
  induction s as [ | c s IH]; simpl; [tauto | ].
  destruct (p c); simpl; [exact IH | split; discriminate].
Qed.

(** Grouping adds nothing but separators: a text of amount characters stays
    one. *)
Lemma arranged_amount_chars (s : pystr) :
  forallb amount_char s = true -> forallb amount_char (arranged s) = true.
Proof.
  intros H. apply forallb_filter.
  rewrite filter_arranged by reflexivity. now apply forallb_filter.
Qed.

Lemma chars_of_uint_amount_chars (d : Decimal.uint) :
  forallb amount_char (chars_of_uint d) = true.
Proof. induction d; simpl; auto. Qed.

Lemma chars_of_uint_no_minus (d : Decimal.uint) :
  filter is_minus (chars_of_uint d) = [].
Proof. induction d; simpl; auto. Qed.

Lemma str_int_amount_chars (n : Z) : forallb amount_char (str_int n) = true.
Proof.
  unfold str_int. destruct (Z.to_int n); simpl;
    apply chars_of_uint_amount_chars.
Qed.

(** The minus signs of the decimal text: one for a negative number, none
    otherwise. *)
Lemma str_int_minus (n : Z) :
  filter is_minus (str_int n) = if n <? 0 then [minus] else [].
Proof.
  destruct n as [ | p | p]; unfold str_int;
    cbn [Z.to_int Z.ltb Z.compare].
  - reflexivity.
  - apply chars_of_uint_no_minus.
  - cbn [filter]. change (is_minus minus) with true. cbv iota.
    f_equal. apply chars_of_uint_no_minus.
Qed.

(** Whatever its argument, [format_currency] returns the rupee sign, a
    space, and then only ASCII digits, separators and at most a minus sign:
    never a decimal point, an exponent or the text of a NaN. *)
Theorem format_currency_alphabet (v : value) :
  exists body,
    format_currency v = rupee :: 32%N :: body
    /\ forallb amount_char body = true
    /\ (length (filter is_minus body) <= 1)%nat.
Proof.
  destruct (py_int v) as [n | e] eqn:E.
  - exists (amount n). repeat split.
    + unfold format_currency. rewrite E.
      change (match Ok n with
              | Ok val =>
                  let s := str_int val in
                  if (length s <=? 3)%nat
                  then rupee :: lit " " ++ s
                  else rupee :: lit " " ++ grouped s
              | Raise _ => rupee :: lit " 0"
              end) with (format_currency (PyInt n)).
      apply format_currency_int.
    + apply arranged_amount_chars, str_int_amount_chars.
    + unfold amount. rewrite filter_arranged by reflexivity.
      rewrite str_int_minus. destruct (n <? 0); simpl; lia.
  - exists (lit "0"). unfold format_currency. rewrite E.
    repeat split. simpl. lia.
Qed.

(* ================================================================== *)
(** ** Telling amounts apart *)

Lemma digits_only_format_currency (v : Z) :
  digits_only (format_currency (PyInt v)) = str_int (Z.abs v).
Proof.
  rewrite format_currency_int.
  change (digits_only (rupee :: lit " " ++ amount v))
    with (digits_only (amount v)).
  rewrite digits_only_amount.
  destruct (Z.lt_ge_cases v 0) as [Hneg | Hpos].
  - rewrite (str_int_neg v Hneg).
    change (digits_only (minus :: str_int (- v)))
      with (digits_only (str_int (- v))).
    rewrite Z.abs_neq by lia. apply str_int_digits. lia.
  - rewrite Z.abs_eq by lia. now apply str_int_digits.
Qed.

(** The digits of [format_currency(v)] read back as [|v|], for every
    integer: the sign is the only thing they lose. *)
Theorem format_currency_digits_abs (v : Z) :
  int_of_digits (digits_only (format_currency (PyInt v))) = Ok (Z.abs v).
Proof.
  rewrite digits_only_format_currency.
  apply int_of_digits_str_int. lia.
Qed.

Lemma minus_of_format_currency (v : Z) :
  filter is_minus (format_currency (PyInt v))
  = if v <? 0 then [minus] else [].
Proof.
  rewrite format_currency_int.
  change (filter is_minus (rupee :: lit " " ++ amount v))
    with (filter is_minus (amount v)).
  unfold amount. rewrite filter_arranged by reflexivity.
  apply str_int_minus.
Qed.

(** Two integers are shown the same only if they are the same integer. *)
Theorem format_currency_injective (u v : Z) :
  format_currency (PyInt u) = format_currency (PyInt v) -> u = v.
Proof.
  intros H.
  assert (Habs : Z.abs u = Z.abs v).
  { pose proof (digits_only_format_currency u) as Hu.
    rewrite H, digits_only_format_currency in Hu.
    apply (f_equal int_of_digits) in Hu.
    rewrite !int_of_digits_str_int in Hu by lia.
    now injection Hu as ->. }
  pose proof (minus_of_format_currency u) as Su.
  rewrite H, minus_of_format_currency in Su.
  destruct (Z.ltb_spec v 0), (Z.ltb_spec u 0); try discriminate; lia.
Qed.

Lemma format_currency_injective_witness : 1234567 = 1234567.
Proof. apply format_currency_injective. reflexivity. Defined.

(* ================================================================== *)
(** ** The sizes of the groups *)

Lemma split_on_none (s : pystr) :
  filter (fun c => N.eqb c comma) s = [] -> split_on comma s = [s].
Proof.
  induction s as [ | c s IH]; simpl; [reflexivity | ].
  destruct (N.eqb c comma); [discriminate | ].
  intros H. now rewrite (IH H).
Qed.

Lemma split_on_app (s rest : pystr) :
  filter (fun c => N.eqb c comma) s = [] ->
  split_on comma (s ++ comma :: rest) = s :: split_on comma rest.
Proof.
  induction s as [ | c s IH]; simpl.
  - intros _. reflexivity.
  - destruct (N.eqb c comma); [discriminate | ].
    intros H. now rewrite (IH H).
Qed.

(** Splitting the grouped text at the separators gives the groups back. *)
Lemma split_on_join (parts : list pystr) (last : pystr) :
  parts <> [] ->
  filter (fun c => N.eqb c comma) (List.concat parts) = [] ->
  filter (fun c => N.eqb c comma) last = [] ->
  split_on comma (join [comma] parts ++ [comma] ++ last) = parts ++ [last].
Proof.
  intros Hne Hparts Hlast.
  induction parts as [ | p ps IH]; [congruence | ].
  simpl List.concat in Hparts. rewrite filter_app in Hparts.
  apply app_eq_nil in Hparts. destruct Hparts as [Hp Hps].
  destruct ps as [ | q ps].
  - simpl. rewrite split_on_app by exact Hp.
    now rewrite split_on_none.
  - change (join [comma] (p :: q :: ps))
      with (p ++ [comma] ++ join [comma] (q :: ps)).
    rewrite <- !List.app_assoc. simpl app at 2.
    rewrite split_on_app by exact Hp.
    simpl. f_equal. apply IH; [discriminate | exact Hps].
Qed.

Lemma half_double (k : nat) : (2 * k / 2 = k)%nat.
Proof. rewrite Nat.mul_comm. apply Nat.div_mul. lia. Qed.

Lemma half_double_succ (k : nat) : ((2 * k + 1) / 2 = k)%nat.
Proof. symmetry. apply Nat.div_unique with (r := 1%nat); lia. Qed.

Lemma half_double_pred (k : nat) :
  (1 <= k)%nat -> ((2 * k - 1) / 2 = k - 1)%nat.
Proof. intros H. symmetry. apply Nat.div_unique with (r := 1%nat); lia. Qed.

(** The leading groups of a text: one character if its length is odd, two
    otherwise, and pairs after that. *)
Lemma leading_groups_sizes (r : pystr) :
  r <> [] ->
  map (@length codepoint) (leading_groups r)
  = (if Nat.odd (length r) then [1] else [2])%nat
    ++ repeat 2%nat ((length r - 1) / 2).
Proof.
  induction r as [ | c r IH]; [congruence | intros _].
  rewrite leading_groups_cons.
  change (length (c :: r)) with (S (length r)).
  replace (S (length r) - 1)%nat with (length r) by lia.
  rewrite Nat.odd_succ.
  destruct r as [ | c' r']; [reflexivity | ].
  assert (Hr : c' :: r' <> []) by discriminate.
  specialize (IH Hr). remember (c' :: r') as r eqn:Er.
  assert (Hlen : (1 <= length r)%nat) by (subst r; simpl; lia).
  clear Er c' r'.
  rewrite <- Nat.negb_even in IH.
  destruct (Nat.even (length r)) eqn:Hev; cbn [negb] in IH.
  - apply Nat.even_spec in Hev. destruct Hev as [k Hk].
    rewrite Hk in IH |- *.
    rewrite half_double_pred in IH by lia. rewrite half_double.
    cbn [map]. rewrite IH.
    replace k with (S (k - 1)) at 2 by lia. reflexivity.
  - assert (Hodd : Nat.odd (length r) = true)
      by (now rewrite <- Nat.negb_even, Hev).
    apply Nat.odd_spec in Hodd. destruct Hodd as [k Hk].
    rewrite Hk in IH |- *.
    replace (2 * k + 1 - 1)%nat with (2 * k)%nat in IH by lia.
    rewrite half_double in IH. rewrite half_double_succ.
    destruct (leading_groups r) as [ | h t] eqn:E.
    + exfalso. now apply (leading_groups_nonempty r Hr).
    + cbn [map app] in IH |- *. injection IH as Hh Ht.
      change (length (c :: h)) with (S (length h)).
      now rewrite Hh, Ht.
Qed.

(** The value of a string of [n] decimal digits is below [10 ^ n]. *)
Lemma decimal_value_bound (c : codepoint) (d : Z) :
  decimal_value c = Some d -> 0 <= d <= 9.
Proof.
  unfold decimal_value.
  destruct (find (fun b => in_range c (b, (b + 9)%N)) decimal_runs)
    as [b | ] eqn:E; [ | discriminate].
  apply find_some in E. destruct E as [_ Hb].
  unfold in_range in Hb. simpl in Hb.
  apply andb_true_iff in Hb. destruct Hb as [H1 H2].
  apply N.leb_le in H1, H2. intros [= <-]. lia.
Qed.

Lemma int_of_digits_from_bound (s : pystr) :
  forall acc n,
    0 <= acc -> int_of_digits_from acc s = Ok n ->
    n < (acc + 1) * 10 ^ Z.of_nat (length s).
Proof.
  induction s as [ | c s IH]; intros acc n Hacc;
    cbn [int_of_digits_from].
  - intros [= <-]. simpl. lia.
  - destruct (decimal_value c) as [d | ] eqn:E; [ | discriminate].
    apply decimal_value_bound in E. intros H.
    apply IH in H; [ | lia].
    simpl length. rewrite Nat2Z.inj_succ, Z.pow_succ_r by lia.
    assert (0 < 10 ^ Z.of_nat (length s)) by (apply Z.pow_pos_nonneg; lia).
    nia.
Qed.

Lemma str_int_length (v : Z) :
  0 <= v -> v < 10 ^ Z.of_nat (length (str_int v)).
Proof.
  intros Hv. pose proof (int_of_digits_str_int v Hv) as H.
  apply int_of_digits_from_bound in H; lia.
Qed.

Lemma str_int_no_comma (v : Z) :
  0 <= v -> filter (fun c => N.eqb c comma) (str_int v) = [].
Proof.
  intros Hv. destruct (str_int_nonneg v Hv) as (d & -> & _).
  induction d; simpl; auto.
Qed.

(** From 1000 on the amount is grouped the Indian way: with [n] digits, a
    leading group of one digit if [n] is even and of two if it is odd, then
    groups of two, then the last three digits. *)
Theorem format_currency_group_sizes (v : Z) :
  1000 <= v ->
  let n := length (str_int v) in
  (4 <= n)%nat
  /\ group_sizes (format_currency (PyInt v))
     = ((if Nat.even n then [1] else [2]) ++ repeat 2 ((n - 4) / 2) ++ [3])%nat.
Proof.
  intros Hv n.
  assert (Hn : (4 <= n)%nat).
  { pose proof (str_int_length v ltac:(lia)) as Hb. fold n in Hb.
    destruct (Nat.le_gt_cases 4 n) as [ | Hlt]; [assumption | exfalso].
    assert (10 ^ Z.of_nat n <= 10 ^ 3) by (apply Z.pow_le_mono_r; lia).
    lia. }
  split; [exact Hn | ].
  rewrite format_currency_int. unfold group_sizes, amount.
  change (skipn 2 (rupee :: lit " " ++ arranged (str_int v)))
    with (arranged (str_int v)).
  rewrite arranged_long by (fold n; lia).
  unfold grouped. cbv zeta.
  assert (Hc : filter (fun c => N.eqb c comma) (str_int v) = [])
    by (apply str_int_no_comma; lia).
  rewrite <- (drop_last_app 3 (str_int v)), filter_app in Hc.
  apply app_eq_nil in Hc. destruct Hc as [Hrest Hlast].
  assert (Hne : drop_last_chars 3 (str_int v) <> []).
  { intros H. apply (f_equal (@length codepoint)) in H.
    rewrite drop_last_length in H. fold n in H. simpl in H. lia. }
  rewrite split_on_join.
  - rewrite map_app, leading_groups_sizes by exact Hne.
    cbn [map].
    rewrite drop_last_length, last_chars_length. fold n.
    replace (Nat.min 3 n) with 3%nat by lia.
    replace (Nat.odd (n - 3)) with (Nat.even n).
    + replace (n - 3 - 1)%nat with (n - 4)%nat by lia.
      now rewrite <- List.app_assoc.
    + replace n with (S (S (S (n - 3)))) at 1 by lia.
      rewrite Nat.even_succ_succ, Nat.even_succ. reflexivity.
  - now apply leading_groups_nonempty.
  - now rewrite leading_groups_concat.
  - exact Hlast.
Qed.

Lemma format_currency_group_sizes_witness :
  (4 <= length (str_int 1234567))%nat
  /\ group_sizes (format_currency (PyInt 1234567))
     = ((if Nat.even (length (str_int 1234567)) then [1] else [2])
        ++ repeat 2 ((length (str_int 1234567) - 4) / 2) ++ [3])%nat.
Proof. apply (format_currency_group_sizes 1234567). lia. Defined.

(* ================================================================== *)
(** ** Undoing a scenario *)

(** Taking the change back from the changed spend gives the two revenues of
    the scenario in the other order: what was new is the base, and the base
    is what the reverse change leads to. *)
Theorem scenario_tool_reverse (predict : Z -> Z -> Z -> float64)
        (base_marketing delta : Z) :
  scenario_tool predict (base_marketing + delta) (- delta)
  = (snd (scenario_tool predict base_marketing delta),
     fst (scenario_tool predict base_marketing delta)).
Proof.
  unfold scenario_tool. cbv zeta. simpl fst. simpl snd.
  replace (base_marketing + delta + - delta) with base_marketing by lia.
  reflexivity.
Qed.
